(** * Sleep-Suivour local server: the path validator and the header policy

    A shallow embedding of [server.py] (class [SecureHTTPRequestHandler])
    together with the parts of CPython's [http.server], [posixpath],
    [genericpath] and [urllib.parse] that its methods call.

    Conventions.
    - A Python [str] is a sequence of Unicode code points: [list N].
      String constants of the source are written [py "..."].
    - [os.path] is [posixpath] (the server runs on a POSIX host).
    - A request is one for which [parse_request] succeeded with an
      HTTP/1.x version: the handler starts with [command], [path],
      [requestline] and [headers] filled in.
    - The standard output encodes as UTF-8. The lines a request makes the
      server print can all be encoded, and [print] appends them; a string
      with a surrogate code point, which [is_safe_path] can be given when
      it is called on its own, cannot, and [print_utf8] raises there.
    - The file system answers [send_head] with one of the outcomes of
      [fs_outcome]: its calls return, or raise the [OSError] that
      [send_head] catches. A path on which [open] raises something else (a
      [ValueError] for a NUL character) gets no response from the library
      and is not among the outcomes.
    - What lies outside the program (percent-decoding tables, the Unicode
      case tables beyond ASCII, the file system, the clock, the reason
      phrases of [http.HTTPStatus]) is gathered in a record [Env]; every
      theorem holds for every environment. *)

From Stdlib Require Import String Ascii ZArith NArith List Bool Lia DecimalString.
From stdpp Require Import base decidable list gmap.

Import ListNotations.
Local Open Scope N_scope.

(** ** Python strings *)

Module Str.

Definition str : Type := list N.

(** A string literal of the source, code point by code point. *)
Definition py (s : string) : str :=
  List.map N_of_ascii (list_ascii_of_string s).

(** [s.startswith(prefix)] *)
Fixpoint startswith (s prefix : str) {struct prefix} : bool :=
  match prefix, s with
  | [], _ => true
  | _ :: _, [] => false
  | p :: prefix', c :: s' => N.eqb c p && startswith s' prefix'
  end.

(** [s.endswith(suffix)] *)
Definition endswith (s suffix : str) : bool :=
  startswith (rev s) (rev suffix).

(** [sub in s] *)
Fixpoint contains (sub s : str) : bool :=
  startswith s sub ||
  match s with
  | [] => false
  | _ :: s' => contains sub s'
  end.

(** [s.split(sep)] for a one-character separator: never empty. *)
Fixpoint split (sep : N) (s : str) : list str :=
  match s with
  | [] => [[]]
  | c :: s' =>
      if N.eqb c sep then [] :: split sep s'
      else match split sep s' with
           | [] => [[c]]
           | w :: ws => (c :: w) :: ws
           end
  end.

(** [sep.join(parts)] *)
Fixpoint join (sep : str) (parts : list str) : str :=
  match parts with
  | [] => []
  | [w] => w
  | w :: ws => w ++ sep ++ join sep ws
  end.

(** [s.find(c)] from position [i] on, as an index into the whole string;
    [-1] when [c] does not occur. *)
Fixpoint find_from (c : N) (s : str) (i : Z) : Z :=
  match s with
  | [] => (-1)%Z
  | d :: s' => if N.eqb d c then i else find_from c s' (i + 1)%Z
  end.

(** [s.rfind(c)] for a one-character [c]: the highest index, or [-1]. *)
Fixpoint rfind_from (c : N) (s : str) (i : Z) : Z :=
  match s with
  | [] => (-1)%Z
  | d :: s' =>
      let r := rfind_from c s' (i + 1)%Z in
      if (0 <=? r)%Z then r else if N.eqb d c then i else (-1)%Z
  end.

Definition rfind (s : str) (c : N) : Z := rfind_from c s 0%Z.

(** Python's treatment of a slice bound: negative bounds count from the
    end, and the result is clamped to [0 .. len s]. *)
Definition bound (s : str) (i : Z) : nat :=
  let n := Z.of_nat (length s) in
  let i := if (i <? 0)%Z then (i + n)%Z else i in
  Z.to_nat (Z.min n (Z.max 0 i)).

(** [s[i:]], [s[:j]] and [s[i:j]] *)
Definition slice_from (s : str) (i : Z) : str := drop (bound s i) s.
Definition slice_to (s : str) (j : Z) : str := take (bound s j) s.
Definition slice (s : str) (i j : Z) : str :=
  take (bound s j - bound s i)%nat (drop (bound s i) s).

Definition is_ascii (c : N) : bool := c <? 128.

(** [str.lower] on one ASCII character. *)
Definition ascii_lower (c : N) : N :=
  if (65 <=? c) && (c <=? 90) then c + 32 else c.

(** [str(n)] for a non-negative integer. *)
Definition of_N (n : N) : str :=
  py (NilEmpty.string_of_uint (N.to_uint n)).

Definition eqb (s t : str) : bool := bool_decide (s = t).

(** [s.lstrip(chars)] *)
Fixpoint lstrip (chars : str) (s : str) : str :=
  match s with
  | [] => []
  | c :: s' => if bool_decide (c ∈ chars) then lstrip chars s' else s
  end.

End Str.

Import Str.

(** ** [posixpath] and [genericpath] *)

Module Posixpath.

Definition sep : N := 47.     (* '/' *)
Definition extsep : N := 46.  (* '.' *)

(** [posixpath.basename]: [i = p.rfind('/') + 1; return p[i:]] *)
Definition basename (p : str) : str :=
  let i := (rfind p sep + 1)%Z in
  slice_from p i.

(** The [while filenameIndex < dotIndex] loop of [genericpath._splitext].
    [n] is the number of iterations left, [dotIndex - filenameIndex], so
    [n = 0] is the exit of the loop. *)
Fixpoint _splitext_loop (p : str) (dotIndex : Z) (n : nat)
    (filenameIndex : Z) : str * str :=
  match n with
  | O => (p, slice_to p 0)
  | S n' =>
      if negb (Str.eqb (slice p filenameIndex (filenameIndex + 1)) [extsep])
      then (slice_to p dotIndex, slice_from p dotIndex)
      else _splitext_loop p dotIndex n' (filenameIndex + 1)%Z
  end.

(** [genericpath._splitext(p, '/', None, '.')] *)
Definition _splitext (p : str) : str * str :=
  let sepIndex := rfind p sep in
  let dotIndex := rfind p extsep in
  if (sepIndex <? dotIndex)%Z then
    let filenameIndex := (sepIndex + 1)%Z in
    _splitext_loop p dotIndex (Z.to_nat (dotIndex - filenameIndex))
      filenameIndex
  else (p, slice_to p 0).

Definition splitext (p : str) : str * str := _splitext p.

(** One iteration of the [for comp in comps] loop of [normpath];
    [new_comps] is kept in order, so [append] adds at the end and [pop]
    removes the last element. *)
Definition normpath_step (initial_slashes : nat) (new_comps : list str)
    (comp : str) : list str :=
  if Str.eqb comp [] || Str.eqb comp (py ".") then new_comps
  else if negb (Str.eqb comp (py ".."))
          || (Nat.eqb initial_slashes 0 && bool_decide (new_comps = []))
          || (negb (bool_decide (new_comps = []))
              && Str.eqb (List.last new_comps []) (py ".."))
  then new_comps ++ [comp]
  else if negb (bool_decide (new_comps = [])) then removelast new_comps
  else new_comps.

(** [posixpath.normpath] *)
Definition normpath (path : str) : str :=
  if Str.eqb path [] then py "." else
  let initial_slashes :=
    if startswith path [sep] then
      if startswith path [sep; sep] && negb (startswith path [sep; sep; sep])
      then 2%nat else 1%nat
    else 0%nat in
  let comps := split sep path in
  let new_comps := fold_left (normpath_step initial_slashes) comps [] in
  let path := join [sep] new_comps in
  let path :=
    if Nat.eqb initial_slashes 0 then path
    else List.repeat sep initial_slashes ++ path in
  if Str.eqb path [] then py "." else path.

End Posixpath.

(** ** The world outside the program *)

(** A raised Python exception, by the name of its class. *)
Inductive exn : Type := PyExc (type_name : string).

(** What [SimpleHTTPRequestHandler.send_head] finds for a request: the
    branch of its body that the file system and the request headers select,
    with the values it then puts into the response. *)
Inductive fs_outcome : Type :=
  | DirNoSlash (new_url : str)
      (* a directory asked for without the trailing '/' *)
  | DirListing (enc : str) (length_ : str) (listing : list N)
      (* a directory without index file, [list_directory] succeeds *)
  | DirUnreadable
      (* a directory without index file, [os.listdir] raises [OSError] *)
  | Missing
      (* [open] raises [OSError], or the path ends with '/' *)
  | Unmodified
      (* [If-Modified-Since] is not older than the file *)
  | Regular (ctype : str) (size : str) (mtime : str) (content : list N).

Record Env : Type := {
  (** [urllib.parse.unquote]: the decoded string, or the exception it raises *)
  unquote : str -> exn + str;
  (** [str.lower] on a string with a character outside ASCII *)
  unicode_lower : str -> str;
  (** [BaseHTTPRequestHandler.responses]: reason phrase and explanation *)
  responses : N -> option (str * str);
  (** [error_message_format % {...}], encoded: the body of an error page *)
  error_page : N -> str -> str -> list N;
  (** ["%r" % command] *)
  repr : str -> str;
  version_string : str;
  date_time_string : str;
  protocol_version : str;
  error_content_type : str;
  (** the file system as seen through [send_head], for a request path and
      the request headers *)
  fs : str -> list (str * str) -> fs_outcome
}.

(** [str.lower]: ASCII strings are lowered here, others by the Unicode
    tables of the environment. *)
Definition lower (env : Env) (s : str) : str :=
  if forallb is_ascii s then List.map ascii_lower s else unicode_lower env s.

(** ** Module-level constants of [server.py] *)

Record globals : Type := {
  ALLOWED_EXTENSIONS : gset str;
  ALLOWED_PATHS : gset str
}.

Definition module_globals : globals := {|
  ALLOWED_EXTENSIONS :=
    {[ py ".html"; py ".css"; py ".js"; py ".json"; py ".png"; py ".jpg";
       py ".jpeg"; py ".gif"; py ".svg"; py ".ico"; py ".woff"; py ".woff2";
       py ".ttf"; py ".webp" ]};
  ALLOWED_PATHS := {[ py "/"; py "/index.html"; py "/app.js"; py "/styles.css" ]}
|}.

(** ** The handler object and what it writes *)

Inductive line : Type :=
  | StatusLine (version : str) (code : N) (message : str)
  | HeaderLine (keyword value : str)
  | BlankLine.

Inductive chunk : Type :=
  | Lines (ls : list line)     (* a flushed header buffer *)
  | Payload (body : list N).   (* an error page or a file *)

(** The three diagnostics of [is_safe_path]. *)
Inductive reason : Type := Traversal | HiddenFile | FileType.

(** A line on standard output. *)
Inductive printed : Type :=
  | Blocked (why : reason) (path : str)
  | Logged (client_ip : str) (arg0 : str).

(** The text of a [Blocked] line: the f-strings of [is_safe_path]. *)
Definition warning_sign : str := [9888; 65039].

Definition blocked_text (why : reason) (path : str) : str :=
  warning_sign ++
  match why with
  | Traversal => py "  Blocked path traversal attempt: "
  | HiddenFile => py "  Blocked hidden file access: "
  | FileType => py "  Blocked disallowed file type: "
  end ++ path.

Record handler : Type := {
  client_address : str * N;
  requestline : str;
  command : str;
  path : str;
  headers : list (str * str);
  close_connection : bool;
  _headers_buffer : list line;
  wfile : list chunk;
  stdout : list printed
}.

Definition set_close_connection (b : bool) (h : handler) : handler :=
  {| client_address := client_address h; requestline := requestline h;
     command := command h; path := path h; headers := headers h;
     close_connection := b;
     _headers_buffer := _headers_buffer h; wfile := wfile h;
     stdout := stdout h |}.

Definition set_headers_buffer (b : list line) (h : handler) : handler :=
  {| client_address := client_address h; requestline := requestline h;
     command := command h; path := path h; headers := headers h;
     close_connection := close_connection h;
     _headers_buffer := b; wfile := wfile h;
     stdout := stdout h |}.

Definition set_wfile (w : list chunk) (h : handler) : handler :=
  {| client_address := client_address h; requestline := requestline h;
     command := command h; path := path h; headers := headers h;
     close_connection := close_connection h;
     _headers_buffer := _headers_buffer h; wfile := w;
     stdout := stdout h |}.

Definition set_stdout (o : list printed) (h : handler) : handler :=
  {| client_address := client_address h; requestline := requestline h;
     command := command h; path := path h; headers := headers h;
     close_connection := close_connection h;
     _headers_buffer := _headers_buffer h; wfile := wfile h;
     stdout := o |}.

(** ** Methods: state over the handler, with exceptions *)

Inductive outcome (A : Type) : Type :=
  | Return (a : A)
  | Raise (e : exn).
Arguments Return {A} a.
Arguments Raise {A} e.

Definition M (A : Type) : Type := handler -> outcome A * handler.

#[global] Instance M_ret : MRet M := fun A a h => (Return a, h).

#[global] Instance M_bind : MBind M := fun A B f m h =>
  match m h with
  | (Return a, h') => f a h'
  | (Raise e, h') => (Raise e, h')
  end.

Definition raise {A : Type} (e : exn) : M A := fun h => (Raise e, h).

(** [try: body except: handler_] (a bare [except] catches everything). *)
Definition try_except {A : Type} (body : M A) (handler_ : M A) : M A :=
  fun h =>
    match body h with
    | (Return a, h') => (Return a, h')
    | (Raise _, h') => handler_ h'
    end.

(** A library call that returns or raises, without touching the handler. *)
Definition call {A : Type} (r : exn + A) : M A :=
  match r with
  | inr a => mret a
  | inl e => raise e
  end.

Definition gets {A : Type} (f : handler -> A) : M A := fun h => (Return (f h), h).
Definition modify (f : handler -> handler) : M unit := fun h => (Return tt, f h).

(** [print(...)] on a standard output that takes the line. *)
Definition print (l : printed) : M unit :=
  modify (fun h => set_stdout (stdout h ++ [l]) h).

(** The text of a line: the f-strings of [is_safe_path] and [log_message]. *)
Definition text_of (l : printed) : str :=
  match l with
  | Blocked why path => blocked_text why path
  | Logged client_ip arg0 => py "[" ++ client_ip ++ py "] " ++ arg0
  end.

(** A surrogate code point, U+D800 to U+DFFF: UTF-8 has no encoding for
    it. *)
Definition is_surrogate (c : N) : bool := (55296 <=? c) && (c <=? 57343).

(** [text.encode('utf-8')] succeeds. *)
Definition encodable (text : str) : bool :=
  forallb (fun c => negb (is_surrogate c)) text.

(** [print(...)] on the standard output CPython opens by default on a POSIX
    host: UTF-8 with [errors='strict']. The text is encoded before anything
    is written, so a line that cannot be encoded raises and leaves the
    output as it was. *)
Definition print_utf8 (l : printed) : M unit :=
  if encodable (text_of l) then print l
  else raise (PyExc "UnicodeEncodeError").

(** ** [http.server.BaseHTTPRequestHandler] *)

Module BaseHTTPRequestHandler.
Section Methods.

Context (env : Env).

(** Methods looked up on the object: a subclass may override them. *)
Variable self_log_message : str -> list str -> M unit.
Variable self_end_headers : M unit.
Variable self_getattr : str -> option (M unit).

(** Arguments of [log_message] are given as the text that [str()] (or an
    f-string) makes of them. *)
Definition log_request (code : N) : M unit :=
  rl ← gets requestline;
  self_log_message ([34] ++ py "%s" ++ [34] ++ py " %s %s")
    [rl; of_N code; py "-"].

Definition log_error (format : str) (args : list str) : M unit :=
  self_log_message format args.

Definition send_response_only (code : N) (message : option str) : M unit :=
  let message :=
    match message with
    | Some m => m
    | None =>
        match responses env code with
        | Some (shortmsg, _) => shortmsg
        | None => []
        end
    end in
  modify (fun h =>
    set_headers_buffer
      (_headers_buffer h ++ [StatusLine (protocol_version env) code message])
      h).

Definition send_header (keyword value : str) : M unit :=
  modify (fun h =>
    set_headers_buffer (_headers_buffer h ++ [HeaderLine keyword value]) h);;
  if Str.eqb (lower env keyword) (py "connection") then
    if Str.eqb (lower env value) (py "close") then
      modify (set_close_connection true)
    else if Str.eqb (lower env value) (py "keep-alive") then
      modify (set_close_connection false)
    else mret tt
  else mret tt.

Definition send_response (code : N) (message : option str) : M unit :=
  log_request code;;
  send_response_only code message;;
  send_header (py "Server") (version_string env);;
  send_header (py "Date") (date_time_string env).

Definition flush_headers : M unit :=
  modify (fun h =>
    set_headers_buffer [] (set_wfile (wfile h ++ [Lines (_headers_buffer h)]) h)).

Definition end_headers : M unit :=
  modify (fun h => set_headers_buffer (_headers_buffer h ++ [BlankLine]) h);;
  flush_headers.

Definition wfile_write (body : list N) : M unit :=
  modify (fun h => set_wfile (wfile h ++ [Payload body]) h).

Definition send_error (code : N) (message explain : option str) : M unit :=
  let '(shortmsg, longmsg) :=
    match responses env code with
    | Some p => p
    | None => (py "???", py "???")
    end in
  let message := default shortmsg message in
  let explain := default longmsg explain in
  log_error (py "code %d, message %s") [of_N code; message];;
  send_response code (Some message);;
  send_header (py "Connection") (py "close");;
  body ←
    (if (200 <=? code)
        && negb (N.eqb code 204 || N.eqb code 205 || N.eqb code 304)
     then
       let body := error_page env code message explain in
       send_header (py "Content-Type") (error_content_type env);;
       send_header (py "Content-Length") (of_N (N.of_nat (length body)));;
       mret (Some body)
     else mret None);
  self_end_headers;;
  cmd ← gets command;
  match body with
  | Some (b :: bs) =>
      if negb (Str.eqb cmd (py "HEAD")) then wfile_write (b :: bs)
      else mret tt
  | _ => mret tt
  end.

(** [handle_one_request], from [mname = 'do_' + self.command] on. *)
Definition handle_one_request : M unit :=
  cmd ← gets command;
  let mname := py "do_" ++ cmd in
  match self_getattr mname with
  | None =>
      send_error 501
        (Some (py "Unsupported method (" ++ repr env cmd ++ py ")")) None
  | Some method => method
  end.

End Methods.
End BaseHTTPRequestHandler.

(** ** [http.server.SimpleHTTPRequestHandler]: the file responder *)

Module SimpleHTTPRequestHandler.
Section Methods.

Context (env : Env).
Variable self_log_message : str -> list str -> M unit.
Variable self_end_headers : M unit.

Let send_response := BaseHTTPRequestHandler.send_response env self_log_message.
Let send_header := BaseHTTPRequestHandler.send_header env.
Let send_error :=
  BaseHTTPRequestHandler.send_error env self_log_message self_end_headers.

(** [send_head]: the response head for each thing the file system can
    hold at the path; the result is the open file, if any. *)
Definition send_head : M (option (list N)) :=
  p ← gets path;
  hs ← gets headers;
  match fs env p hs with
  | DirNoSlash new_url =>
      send_response 301 None;;
      send_header (py "Location") new_url;;
      send_header (py "Content-Length") (py "0");;
      self_end_headers;;
      mret None
  | DirListing enc length_ listing =>
      send_response 200 None;;
      send_header (py "Content-type") (py "text/html; charset=" ++ enc);;
      send_header (py "Content-Length") length_;;
      self_end_headers;;
      mret (Some listing)
  | DirUnreadable =>
      send_error 404 (Some (py "No permission to list directory")) None;;
      mret None
  | Missing =>
      send_error 404 (Some (py "File not found")) None;;
      mret None
  | Unmodified =>
      send_response 304 None;;
      self_end_headers;;
      mret None
  | Regular ctype size mtime content =>
      send_response 200 None;;
      send_header (py "Content-type") ctype;;
      send_header (py "Content-Length") size;;
      send_header (py "Last-Modified") mtime;;
      self_end_headers;;
      mret (Some content)
  end.

Definition do_GET : M unit :=
  f ← send_head;
  match f with
  | Some content => BaseHTTPRequestHandler.wfile_write content
  | None => mret tt
  end.

Definition do_HEAD : M unit :=
  f ← send_head;
  mret tt.

(** The [do_*] attributes of the class. *)
Definition methods : list (str * M unit) :=
  [ (py "do_GET", do_GET); (py "do_HEAD", do_HEAD) ].

End Methods.
End SimpleHTTPRequestHandler.

(** ** [server.py]: class [SecureHTTPRequestHandler] *)

Module SecureHTTPRequestHandler.
Section Methods.

Context (g : globals) (env : Env).

Let send_header := BaseHTTPRequestHandler.send_header env.

Definition log_message (format : str) (args : list str) : M unit :=
  client_ip ← gets (fun h => fst (client_address h));
  match args with
  | [] => raise (PyExc "IndexError")
  | arg0 :: _ => print (Logged client_ip arg0)
  end.

Definition end_headers : M unit :=
  send_header (py "X-Content-Type-Options") (py "nosniff");;
  send_header (py "X-Frame-Options") (py "SAMEORIGIN");;
  send_header (py "X-XSS-Protection") (py "1; mode=block");;
  send_header (py "Referrer-Policy") (py "strict-origin-when-cross-origin");;
  send_header (py "Permissions-Policy")
    (py "geolocation=(), microphone=(), camera=()");;
  let csp :=
    py "default-src 'self'; " ++
    py "script-src 'self' 'unsafe-inline'; " ++
    py "style-src 'self' 'unsafe-inline' https://fonts.googleapis.com; " ++
    py "font-src 'self' https://fonts.gstatic.com; " ++
    py "img-src 'self' data:; " ++
    py "connect-src 'self'; " ++
    py "frame-ancestors 'self';" in
  send_header (py "Content-Security-Policy") csp;;
  send_header (py "Cache-Control") (py "no-store, no-cache, must-revalidate");;
  send_header (py "Expires") (py "0");;
  BaseHTTPRequestHandler.end_headers.

(** Inherited methods, bound to this class. *)
Definition send_error : N -> option str -> option str -> M unit :=
  BaseHTTPRequestHandler.send_error env log_message end_headers.

(** The body of [is_safe_path]; the built-in [print] it calls is a
    parameter, since what [print] does with a line depends on the encoder
    of the standard output. *)
Definition is_safe_path_on (print : printed -> M unit) (path : str) : M bool :=
  let path := nth 0 (split 63 path) [] in
  path ← try_except (call (unquote env path)) (mret path);
  if contains (py "..") path || contains (py "//") path then
    print (Blocked Traversal path);;
    mret false
  else if contains (py "/.") path || startswith path (py ".") then
    print (Blocked HiddenFile path);;
    mret false
  else
    let normalized := Posixpath.normpath path in
    let normalized :=
      if startswith normalized (py "/") && (1 <? length normalized)%nat
      then slice_from normalized 1
      else normalized in
    if contains (py ".") (Posixpath.basename path) then
      let ext := lower env (snd (Posixpath.splitext path)) in
      if negb (bool_decide (ext ∈ ALLOWED_EXTENSIONS g)) then
        print (Blocked FileType path);;
        mret false
      else mret true
    else mret true.

(** [is_safe_path] where every diagnostic can be printed: the path of a
    request holds no surrogate ([parse_request] decodes the request line as
    ISO-8859-1, and [unquote] puts U+FFFD for what is not UTF-8). *)
Definition is_safe_path : str -> M bool := is_safe_path_on print.

(** [is_safe_path] on any string, printing to the UTF-8 standard output. *)
Definition is_safe_path_utf8 : str -> M bool := is_safe_path_on print_utf8.

Definition do_GET : M unit :=
  p ← gets path;
  safe ← is_safe_path p;
  if negb safe then send_error 403 (Some (py "Forbidden")) None
  else SimpleHTTPRequestHandler.do_GET env log_message end_headers.

Definition do_POST : M unit :=
  send_error 405 (Some (py "Method Not Allowed")) None.

Definition do_PUT : M unit :=
  send_error 405 (Some (py "Method Not Allowed")) None.

Definition do_DELETE : M unit :=
  send_error 405 (Some (py "Method Not Allowed")) None.

(** The [do_*] attributes the class body defines. *)
Definition methods : list (str * M unit) :=
  [ (py "do_GET", do_GET); (py "do_POST", do_POST);
    (py "do_PUT", do_PUT); (py "do_DELETE", do_DELETE) ].

(** [getattr(self, name)] for a [do_*] name, along the method resolution
    order: this class, then [SimpleHTTPRequestHandler]; the classes above
    define no such attribute. *)
Definition getattr (name : str) : option (M unit) :=
  snd <$> List.find (fun kv => Str.eqb (fst kv) name)
    (methods ++ SimpleHTTPRequestHandler.methods env log_message end_headers).

Definition handle_one_request : M unit :=
  BaseHTTPRequestHandler.handle_one_request env log_message end_headers getattr.

End Methods.
End SecureHTTPRequestHandler.

(** ** [urllib.parse.unquote], as CPython defines it

    The handler is verified against every decoder ([unquote] is a field of
    [Env]); this is the one the interpreter supplies. *)

Module Urllib.

Definition replacement : N := 65533.  (* U+FFFD *)

Definition is_cont (b : N) : bool := (128 <=? b) && (b <=? 191).
Definition low6 (b : N) : N := N.land b 63.

(** [bytes.decode('utf-8', 'replace')]: an ill-formed sequence is replaced,
    up to the first byte that cannot continue it, by U+FFFD. *)
Fixpoint utf8_decode (bs : list N) : str :=
  match bs with
  | [] => []
  | b :: r0 =>
      if b <? 128 then b :: utf8_decode r0
      else if (194 <=? b) && (b <=? 223) then
        match r0 with
        | c1 :: r1 =>
            if is_cont c1
            then (N.land b 31 * 64 + low6 c1) :: utf8_decode r1
            else replacement :: utf8_decode r0
        | [] => [replacement]
        end
      else if (224 <=? b) && (b <=? 239) then
        match r0 with
        | c1 :: r1 =>
            if is_cont c1
               && negb (N.eqb b 224 && (c1 <? 160))
               && negb (N.eqb b 237 && (160 <=? c1))
            then
              match r1 with
              | c2 :: r2 =>
                  if is_cont c2
                  then (N.land b 15 * 4096 + low6 c1 * 64 + low6 c2)
                         :: utf8_decode r2
                  else replacement :: utf8_decode r1
              | [] => [replacement]
              end
            else replacement :: utf8_decode r0
        | [] => [replacement]
        end
      else if (240 <=? b) && (b <=? 244) then
        match r0 with
        | c1 :: r1 =>
            if is_cont c1
               && negb (N.eqb b 240 && (c1 <? 144))
               && negb (N.eqb b 244 && (144 <=? c1))
            then
              match r1 with
              | c2 :: r2 =>
                  if is_cont c2 then
                    match r2 with
                    | c3 :: r3 =>
                        if is_cont c3
                        then (N.land b 7 * 262144 + low6 c1 * 4096
                              + low6 c2 * 64 + low6 c3) :: utf8_decode r3
                        else replacement :: utf8_decode r2
                    | [] => [replacement]
                    end
                  else replacement :: utf8_decode r1
              | [] => [replacement]
              end
            else replacement :: utf8_decode r0
        | [] => [replacement]
        end
      else replacement :: utf8_decode r0
  end.

(** The value of a character of [_hexdig], if it is one. *)
Definition hexval (c : N) : option N :=
  if (48 <=? c) && (c <=? 57) then Some (c - 48)
  else if (65 <=? c) && (c <=? 70) then Some (c - 55)
  else if (97 <=? c) && (c <=? 102) then Some (c - 87)
  else None.

(** The body of the loop [for item in bits[1:]] of [unquote_to_bytes]. *)
Definition unquote_item (item : list N) : list N :=
  match item with
  | a :: b :: rest =>
      match hexval a, hexval b with
      | Some x, Some y => (16 * x + y) :: rest
      | _, _ => 37 :: item
      end
  | _ => 37 :: item
  end.

(** [unquote_to_bytes] on an ASCII string. *)
Definition unquote_to_bytes (s : str) : list N :=
  match split 37 s with
  | [] => []
  | first :: items => first ++ List.concat (List.map unquote_item items)
  end.

(** [_asciire.split]: the string cut into maximal runs, each marked as
    ASCII or not. *)
Fixpoint runs (s : str) : list (bool * str) :=
  match s with
  | [] => []
  | c :: s' =>
      match runs s' with
      | (a, r) :: rs =>
          if Bool.eqb a (is_ascii c) then (a, c :: r) :: rs
          else (is_ascii c, [c]) :: (a, r) :: rs
      | [] => [(is_ascii c, [c])]
      end
  end.

Definition unquote (s : str) : exn + str :=
  if negb (contains (py "%") s) then inr s
  else
    inr (List.concat
           (List.map
              (fun ar : bool * str =>
                 if fst ar then utf8_decode (unquote_to_bytes (snd ar))
                 else snd ar)
              (runs s))).

End Urllib.

(** ** A host for running the model

    One environment among all: CPython's decoder, the reason phrases of
    [http.HTTPStatus] for the codes the server sends, and a server directory
    that holds [index.html], [app.js], [styles.css] and a [.git/config].
    The error page, [repr] and the case tables beyond ASCII are stand-ins:
    no property below depends on them. *)

Definition host_fs (p : str) (hs : list (str * str)) : fs_outcome :=
  if Str.eqb p (py "/") || Str.eqb p (py "/index.html") then
    Regular (py "text/html") (py "5") (py "Thu, 01 Jan 2026 00:00:00 GMT")
      (py "<p/>")
  else if Str.eqb p (py "/app.js") then
    Regular (py "text/javascript") (py "2") (py "Thu, 01 Jan 2026 00:00:00 GMT")
      (py "//")
  else if Str.eqb p (py "/styles.css") then
    Regular (py "text/css") (py "2") (py "Thu, 01 Jan 2026 00:00:00 GMT")
      (py "{}")
  else if Str.eqb p (py "/.git/config") then
    Regular (py "application/octet-stream") (py "6")
      (py "Thu, 01 Jan 2026 00:00:00 GMT") (py "[core]")
  else if Str.eqb p (py "/.git") then
    DirNoSlash (py "/.git/")
  else Missing.

Definition host_responses (code : N) : option (str * str) :=
  if N.eqb code 200 then Some (py "OK", py "Request fulfilled, document follows")
  else if N.eqb code 301 then
    Some (py "Moved Permanently", py "Object moved permanently -- see URI list")
  else if N.eqb code 304 then
    Some (py "Not Modified", py "Document has not changed since given time")
  else if N.eqb code 403 then
    Some (py "Forbidden", py "Request forbidden -- authorization will not help")
  else if N.eqb code 404 then Some (py "Not Found", py "Nothing matches the given URI")
  else if N.eqb code 405 then
    Some (py "Method Not Allowed",
          py "Specified method is invalid for this resource")
  else if N.eqb code 501 then
    Some (py "Not Implemented", py "Server does not support this operation")
  else None.

Definition host : Env := {|
  unquote := Urllib.unquote;
  unicode_lower := fun s => s;
  responses := host_responses;
  error_page := fun code message explain =>
    py "<h1>Error response</h1><p>" ++ of_N code ++ py " " ++ message
    ++ py "</p><p>" ++ explain ++ py "</p>";
  repr := fun s => py "'" ++ s ++ py "'";
  version_string := py "SimpleHTTP/0.6 Python/3.11.2";
  date_time_string := py "Thu, 01 Jan 2026 00:00:00 GMT";
  protocol_version := py "HTTP/1.0";
  error_content_type := py "text/html;charset=utf-8";
  fs := host_fs
|}.


(** A handler on which [parse_request] has just succeeded; a target that
    starts with [//] is reduced to a single leading [/]. *)
Definition request (method target : string) : handler := {|
  client_address := (py "192.168.1.7", 50000);
  requestline := py method ++ py " " ++ py target ++ py " HTTP/1.1";
  command := py method;
  path :=
    if startswith (py target) (py "//")
    then py "/" ++ lstrip (py "/") (py target)
    else py target;
  headers := [(py "Host", py "192.168.1.2:8000")];
  close_connection := true;
  _headers_buffer := [];
  wfile := [];
  stdout := []
|}.

(** ** Reading a response off the socket *)

Definition lines_of (c : chunk) : list line :=
  match c with
  | Lines ls => ls
  | Payload _ => []
  end.

(** All header-block lines written, in order. *)
Definition sent_lines (w : list chunk) : list line :=
  List.concat (List.map lines_of w).

Definition status_codes (w : list chunk) : list N :=
  omap (fun l => match l with StatusLine _ code _ => Some code | _ => None end)
    (sent_lines w).

(** The status of the response, when exactly one status line was sent. *)
Definition status (w : list chunk) : option N :=
  match status_codes w with
  | [code] => Some code
  | _ => None
  end.

Definition has_header (w : list chunk) (keyword value : str) : Prop :=
  HeaderLine keyword value ∈ sent_lines w.

Definition has_keyword (w : list chunk) (keyword : str) : Prop :=
  ∃ value, HeaderLine keyword value ∈ sent_lines w.

(** The table of section 4.3 of the specification. *)
Definition row (keyword value : string) : str * str := (py keyword, py value).

Definition header_policy : list (str * str) :=
  [ row "X-Content-Type-Options" "nosniff";
    row "X-Frame-Options" "SAMEORIGIN";
    row "X-XSS-Protection" "1; mode=block";
    row "Referrer-Policy" "strict-origin-when-cross-origin";
    row "Permissions-Policy" "geolocation=(), microphone=(), camera=()";
    row "Content-Security-Policy"
      "default-src 'self'; script-src 'self' 'unsafe-inline'; style-src 'self' 'unsafe-inline' https://fonts.googleapis.com; font-src 'self' https://fonts.gstatic.com; img-src 'self' data:; connect-src 'self'; frame-ancestors 'self';";
    row "Cache-Control" "no-store, no-cache, must-revalidate";
    row "Expires" "0" ].

Definition carries_policy (w : list chunk) : Prop :=
  Forall (fun kv => has_header w (fst kv) (snd kv)) header_policy.

Definition lacks_policy (w : list chunk) : Prop :=
  Forall (fun kv => ¬ has_keyword w (fst kv)) header_policy.

(** The table is all the response says under its keywords. *)
Definition only_policy (w : list chunk) : Prop :=
  ∀ keyword value,
    has_header w keyword value → keyword ∈ List.map fst header_policy →
    (keyword, value) ∈ header_policy.

(** Running a method on a handler. *)
Definition result {A : Type} (m : M A) (h : handler) : outcome A := fst (m h).
Definition after {A : Type} (m : M A) (h : handler) : handler := snd (m h).

Definition serve : handler -> handler :=
  after (SecureHTTPRequestHandler.handle_one_request module_globals host).

(** ** Vocabulary of the specification *)

(** A handler that has written nothing yet for the current request. *)
Definition fresh (h : handler) : Prop :=
  _headers_buffer h = [] ∧ wfile h = [].

(** Step 1 of the Validator: [path.split('?')[0]]. *)
Definition stripped (raw : str) : str := nth 0 (split 63 raw) [].

(** Steps 1 and 2: the string the checks of the Validator look at; a decoder
    that raises leaves the stripped string. *)
Definition decoded (env : Env) (raw : str) : str :=
  match unquote env (stripped raw) with
  | inr p => p
  | inl _ => stripped raw
  end.

(** [sub] occurs in [s] as a run of consecutive characters. *)
Definition occurs_in (sub s : str) : Prop :=
  ∃ before after_, s = before ++ sub ++ after_.

Definition begins_with (prefix s : str) : Prop :=
  ∃ after_, s = prefix ++ after_.

(** The final path segment: what follows the last '/', or the whole string. *)
Fixpoint final_segment (s : str) : str :=
  match s with
  | [] => []
  | c :: s' =>
      if bool_decide (Posixpath.sep ∈ s') then final_segment s'
      else if N.eqb c Posixpath.sep then s' else c :: s'
  end.

(** The substring from the last '.' on; empty when there is no '.'. *)
Fixpoint from_last_dot (s : str) : str :=
  match s with
  | [] => []
  | c :: s' =>
      if bool_decide (Posixpath.extsep ∈ s') then from_last_dot s'
      else if N.eqb c Posixpath.extsep then c :: s' else []
  end.

(** The allowed-extension set as the specification lists it. *)
Definition whitelist : list str :=
  List.map py
    [ ".html"; ".css"; ".js"; ".json"; ".png"; ".jpg"; ".jpeg"; ".gif";
      ".svg"; ".ico"; ".woff"; ".woff2"; ".ttf"; ".webp" ]%string.

(** The environment with another decoder. *)
Definition with_unquote (u : str -> exn + str) (env : Env) : Env := {|
  unquote := u;
  unicode_lower := unicode_lower env;
  responses := responses env;
  error_page := error_page env;
  repr := repr env;
  version_string := version_string env;
  date_time_string := date_time_string env;
  protocol_version := protocol_version env;
  error_content_type := error_content_type env;
  fs := fs env
|}.

(** The module with other constants. *)
Definition with_allowed_paths (paths : gset str) (g : globals) : globals :=
  {| ALLOWED_EXTENSIONS := ALLOWED_EXTENSIONS g; ALLOWED_PATHS := paths |}.

Definition with_allowed_extensions (exts : gset str) (g : globals) : globals :=
  {| ALLOWED_EXTENSIONS := exts; ALLOWED_PATHS := ALLOWED_PATHS g |}.

(** The Validator with step 5 (normalization) taken out: [is_safe_path]
    without the lines that compute [normalized]. *)
Definition is_safe_path_without_normalization (g : globals) (env : Env)
    (path : str) : M bool :=
  let path := nth 0 (split 63 path) [] in
  path ← try_except (call (unquote env path)) (mret path);
  if contains (py "..") path || contains (py "//") path then
    print (Blocked Traversal path);;
    mret false
  else if contains (py "/.") path || startswith path (py ".") then
    print (Blocked HiddenFile path);;
    mret false
  else
    if contains (py ".") (Posixpath.basename path) then
      let ext := lower env (snd (Posixpath.splitext path)) in
      if negb (bool_decide (ext ∈ ALLOWED_EXTENSIONS g)) then
        print (Blocked FileType path);;
        mret false
      else mret true
    else mret true.

(** The handler [h] with the four fields that methods assign. *)
Definition upd (c : bool) (b : list line) (w : list chunk) (o : list printed)
    (h : handler) : handler :=
  {| client_address := client_address h; requestline := requestline h;
     command := command h; path := path h; headers := headers h;
     close_connection := c; _headers_buffer := b; wfile := w; stdout := o |}.

(** The lines that [end_headers] adds before the blank line. *)
Definition policy_lines : list line :=
  List.map (fun kv => HeaderLine (fst kv) (snd kv)) header_policy.

(** What [send_header] does to [close_connection]. *)
Definition connection_flag (env : Env) (keyword value : str) (c : bool) : bool :=
  if Str.eqb (lower env keyword) (py "connection") then
    if Str.eqb (lower env value) (py "close") then true
    else if Str.eqb (lower env value) (py "keep-alive") then false
    else c
  else c.

(** ** Responses *)

(** [send_error] sends a body for these codes. *)
Definition has_body (code : N) : bool :=
  (200 <=? code) && negb (N.eqb code 204 || N.eqb code 205 || N.eqb code 304).

(** The keywords of the table. *)
Definition policy_keywords : list str := List.map fst header_policy.

(** A header line whose keyword is not one of the table. *)
Definition is_header (l : line) : bool :=
  match l with
  | HeaderLine keyword _ => negb (bool_decide (keyword ∈ policy_keywords))
  | _ => false
  end.

Definition is_payload (c : chunk) : bool :=
  match c with
  | Payload _ => true
  | Lines _ => false
  end.

Definition is_logged (l : printed) : bool :=
  match l with
  | Logged _ _ => true
  | Blocked _ _ => false
  end.

(** From [h] to [h'] one response with status [code] went out: one header
    block that starts with the status line and ends with the headers of
    [end_headers] and the blank line, then at most a body; [logs] were
    printed. *)
Definition responded (env : Env) (code : N) (logs : list printed)
    (h h' : handler) : Prop :=
  ∃ c message head payload,
    h' = upd c []
           (wfile h ++
            Lines (_headers_buffer h ++
                   StatusLine (protocol_version env) code message ::
                   head ++ policy_lines ++ [BlankLine]) :: payload)
           (stdout h ++ logs) h
    ∧ forallb is_header head = true
    ∧ forallb is_payload payload = true.

(** The outcomes of the file system on which a file or a listing is served. *)
Definition served (o : fs_outcome) : bool :=
  match o with
  | Regular _ _ _ _ | DirListing _ _ _ => true
  | _ => false
  end.

(** Method lookup, [getattr(self, 'do_' + command)], as a table. *)
Definition dispatch (g : globals) (env : Env) (cmd : str) : option (M unit) :=
  if decide (cmd = py "GET") then Some (SecureHTTPRequestHandler.do_GET g env)
  else if decide (cmd = py "POST") then Some (SecureHTTPRequestHandler.do_POST env)
  else if decide (cmd = py "PUT") then Some (SecureHTTPRequestHandler.do_PUT env)
  else if decide (cmd = py "DELETE") then
    Some (SecureHTTPRequestHandler.do_DELETE env)
  else if decide (cmd = py "HEAD") then
    Some (SimpleHTTPRequestHandler.do_HEAD env SecureHTTPRequestHandler.log_message
            (SecureHTTPRequestHandler.end_headers env))
  else None.

(** ** Further vocabulary *)

(** The environment with another file system. *)
Definition with_fs (f : str → list (str * str) → fs_outcome) (env : Env) : Env := {|
  unquote := unquote env;
  unicode_lower := unicode_lower env;
  responses := responses env;
  error_page := error_page env;
  repr := repr env;
  version_string := version_string env;
  date_time_string := date_time_string env;
  protocol_version := protocol_version env;
  error_content_type := error_content_type env;
  fs := f
|}.

(** Percent-decoding read from left to right: a [%] followed by two
    characters of [_hexdig] is one byte, any other character stands for
    itself. ([unquote_to_bytes] cuts at every [%] first; the two agree, see
    [unquote_to_bytes_pct_decode].) *)
Fixpoint pct_decode (s : str) : list N :=
  match s with
  | [] => []
  | c :: s' =>
      if N.eqb c 37 then
        match s' with
        | a :: b :: t =>
            match Urllib.hexval a, Urllib.hexval b with
            | Some x, Some y => (16 * x + y) :: pct_decode t
            | _, _ => 37 :: pct_decode s'
            end
        | _ => 37 :: pct_decode s'
        end
      else c :: pct_decode s'
  end.

(** A string that does not begin with a character of [_hexdig]. *)
Definition plain_start (s : str) : bool :=
  match s with
  | [] => true
  | c :: _ => match Urllib.hexval c with Some _ => false | None => true end
  end.

(** The ways to write a dot and a separator in a request target. *)
Definition dot_spellings : list str := [py "."; py "%2e"; py "%2E"].
Definition slash_spellings : list str := [py "/"; py "%2f"; py "%2F"].

(** What every spelling of an ASCII character comes to. *)
Definition spells (c : N) (d : str) : Prop :=
  c < 128
  ∧ plain_start d = true
  ∧ forallb is_ascii d = true
  ∧ d ≠ []
  ∧ (63 ∉ d)
  ∧ (37 ∉ d → d = [c])
  ∧ ∀ rest, pct_decode (d ++ rest) = c :: pct_decode rest.

(** The body of the error page for [code], as [send_error] builds it when no
    explanation is passed. *)
Definition error_body (env : Env) (code : N) (message : str) : list N :=
  error_page env code message
    (snd (default (py "???", py "???") (responses env code))).

(** The header lines of an error response, before those of [end_headers]. *)
Definition error_head (env : Env) (code : N) (message : str) : list line :=
  [ StatusLine (protocol_version env) code message;
    HeaderLine (py "Server") (version_string env);
    HeaderLine (py "Date") (date_time_string env);
    HeaderLine (py "Connection") (py "close");
    HeaderLine (py "Content-Type") (error_content_type env);
    HeaderLine (py "Content-Length")
      (of_N (N.of_nat (length (error_body env code message)))) ].

(** What [send_error] writes after the header block. *)
Definition error_payload (env : Env) (code : N) (message cmd : str) : list chunk :=
  match error_body env code message with
  | [] => []
  | b :: bs => if Str.eqb cmd (py "HEAD") then [] else [Payload (b :: bs)]
  end.

(** The handler after an error response. *)
Definition refused (env : Env) (code : N) (message : str) (h : handler) : handler :=
  upd true []
    (wfile h ++
     Lines (_headers_buffer h ++ error_head env code message
            ++ policy_lines ++ [BlankLine])
     :: error_payload env code message (command h))
    (stdout h ++ [Logged (fst (client_address h)) (of_N code);
                  Logged (fst (client_address h)) (requestline h)])
    h.

(** The methods the handler has a [do_] attribute for. *)
Definition known_methods : list str :=
  [py "GET"; py "POST"; py "PUT"; py "DELETE"; py "HEAD"].


(** What [is_safe_path] does when it denies: the diagnostic is printed,
    then the verdict is returned; what [print] raises is not caught. *)
Definition deny (print : printed -> M unit) (why : reason) (p : str) : M bool :=
  fun h =>
    match print (Blocked why p) h with
    | (Return _, h') => (Return false, h')
    | (Raise e, h') => (Raise e, h')
    end.

(** The local [normalized] of [is_safe_path], as its normalization step
    computes it from the decoded path. *)
Definition normalized_of (path : str) : str :=
  let normalized := Posixpath.normpath path in
  let normalized :=
    if startswith normalized (py "/") && (1 <? length normalized)%nat
    then slice_from normalized 1
    else normalized in
  normalized.

(** A path without its final separator, and without its first one. *)
Fixpoint without_trailing_sep (s : str) : str :=
  match s with
  | [] => []
  | c :: s' =>
      match s' with
      | [] => if N.eqb c Posixpath.sep then [] else [c]
      | _ :: _ => c :: without_trailing_sep s'
      end
  end.

Definition without_leading_sep (s : str) : str :=
  match s with
  | c :: s' => if N.eqb c Posixpath.sep then s' else s
  | [] => []
  end.

Definition nonempty (s : str) : bool := negb (Str.eqb s []).

(** The components [normpath] keeps when none is [.] or [..], joined. *)
Definition kept_components (p : str) : str :=
  join [Posixpath.sep] (List.filter nonempty (split Posixpath.sep p)).

(** * Properties *)

(** ** Strings *)

Lemma startswith_begins (s prefix : str) :
  startswith s prefix = true ↔ begins_with prefix s.
Proof.
  unfold begins_with. revert s.
  induction prefix as [|p prefix IH]; intros s; simpl.
  - split; [intros _; by exists s | reflexivity].
  - destruct s as [|c s].
    + split; [discriminate | intros [r Hr]; discriminate].
    + rewrite andb_true_iff, N.eqb_eq, IH. split.
      * intros [-> [r ->]]. by exists r.
      * intros [r Hr]. injection Hr as -> ->. split; [done | by exists r].
Qed.

Lemma contains_occurs (sub s : str) :
  contains sub s = true ↔ occurs_in sub s.
Proof.
  unfold occurs_in.
  induction s as [|c s IH]; simpl.
  - rewrite orb_false_r, startswith_begins. split.
    + intros [r Hr]. by exists [], r.
    + intros [pre [post H]]. symmetry in H.
      apply app_eq_nil in H as [-> H]. apply app_eq_nil in H as [-> ->].
      by exists [].
  - rewrite orb_true_iff, startswith_begins, IH. split.
    + intros [[r Hr] | [pre [post H]]].
      * by exists [], r.
      * exists (c :: pre), post. by rewrite H.
    + intros [[|d pre] [post H]].
      * left. by exists post.
      * right. injection H as -> ->. by exists pre, post.
Qed.

(** ** The Validator, run *)

(** The run of [is_safe_path], as a function of the decoded string. *)
Lemma is_safe_path_on_run (g : globals) (env : Env)
    (print : printed -> M unit) (raw : str) (h : handler) :
  SecureHTTPRequestHandler.is_safe_path_on g env print raw h =
  let p := decoded env raw in
  if contains (py "..") p || contains (py "//") p then
    deny print Traversal p h
  else if contains (py "/.") p || startswith p (py ".") then
    deny print HiddenFile p h
  else if contains (py ".") (Posixpath.basename p)
          && negb (bool_decide (lower env (snd (Posixpath.splitext p))
                                ∈ ALLOWED_EXTENSIONS g)) then
    deny print FileType p h
  else (Return true, h).
Proof.
  unfold SecureHTTPRequestHandler.is_safe_path_on, decoded, stripped, deny.
  unfold mbind, M_bind, try_except, call.
  destruct (unquote env (nth 0 (split 63 raw) [])) as [e | p]; cbv zeta;
    match goal with
    | |- context [contains (py "..") ?q] => generalize q; intros s
    end.
  all: unfold raise, mret, M_ret.
  all: destruct (contains (py "..") s || contains (py "//") s);
    [by destruct (print _ h) as [[[] | e'] h'] |].
  all: destruct (contains (py "/.") s || startswith s (py "."));
    [by destruct (print _ h) as [[[] | e'] h'] |].
  all: destruct (contains (py ".") (Posixpath.basename s)); [| reflexivity].
  all: destruct (bool_decide
                   (lower env (snd (Posixpath.splitext s)) ∈ ALLOWED_EXTENSIONS g));
    [reflexivity | cbn; reflexivity].
Qed.

(** The verdict and the diagnostic of [is_safe_path], as a function of the
    decoded string. *)
Lemma is_safe_path_run (g : globals) (env : Env) (raw : str) (h : handler) :
  SecureHTTPRequestHandler.is_safe_path g env raw h =
  let p := decoded env raw in
  if contains (py "..") p || contains (py "//") p then
    (Return false, set_stdout (stdout h ++ [Blocked Traversal p]) h)
  else if contains (py "/.") p || startswith p (py ".") then
    (Return false, set_stdout (stdout h ++ [Blocked HiddenFile p]) h)
  else if contains (py ".") (Posixpath.basename p)
          && negb (bool_decide (lower env (snd (Posixpath.splitext p))
                                ∈ ALLOWED_EXTENSIONS g)) then
    (Return false, set_stdout (stdout h ++ [Blocked FileType p]) h)
  else (Return true, h).
Proof.
  unfold SecureHTTPRequestHandler.is_safe_path.
  by rewrite is_safe_path_on_run.
Qed.

(** The words of a diagnostic can always be encoded: whether the line can
    be printed is a matter of the path alone. *)
Lemma encodable_blocked_text (why : reason) (p : str) :
  encodable (blocked_text why p) = encodable p.
Proof.
  unfold blocked_text, encodable. rewrite !forallb_app.
  by destruct why.
Qed.

Lemma deny_print (why : reason) (p : str) (h : handler) :
  deny print why p h
  = (Return false, set_stdout (stdout h ++ [Blocked why p]) h).
Proof. reflexivity. Qed.

Lemma deny_print_utf8 (why : reason) (p : str) (h : handler) :
  deny print_utf8 why p h
  = if encodable p
    then (Return false, set_stdout (stdout h ++ [Blocked why p]) h)
    else (Raise (PyExc "UnicodeEncodeError"), h).
Proof.
  unfold deny, print_utf8. cbn [text_of].
  rewrite encodable_blocked_text. by destruct (encodable p).
Qed.

(** The run of [is_safe_path] on the UTF-8 standard output, from its run
    where every line can be printed: the same, unless a diagnostic is due
    that cannot be encoded. *)
Lemma is_safe_path_utf8_run (g : globals) (env : Env) (raw : str) (h : handler) :
  SecureHTTPRequestHandler.is_safe_path_utf8 g env raw h =
  if encodable (decoded env raw)
  then SecureHTTPRequestHandler.is_safe_path g env raw h
  else
    match fst (SecureHTTPRequestHandler.is_safe_path g env raw h) with
    | Return false => (Raise (PyExc "UnicodeEncodeError"), h)
    | _ => SecureHTTPRequestHandler.is_safe_path g env raw h
    end.
Proof.
  unfold SecureHTTPRequestHandler.is_safe_path_utf8,
    SecureHTTPRequestHandler.is_safe_path.
  rewrite !is_safe_path_on_run. cbv zeta.
  rewrite !deny_print, !deny_print_utf8.
  destruct (encodable (decoded env raw)); [reflexivity |].
  destruct (contains (py "..") (decoded env raw)
            || contains (py "//") (decoded env raw)); [reflexivity |].
  destruct (contains (py "/.") (decoded env raw)
            || startswith (decoded env raw) (py ".")); [reflexivity |].
  destruct (contains (py ".") (Posixpath.basename (decoded env raw))
            && negb (bool_decide
                       (lower env (snd (Posixpath.splitext (decoded env raw)))
                        ∈ ALLOWED_EXTENSIONS g))); reflexivity.
Qed.

(** ** Paths: [rfind], [basename] and [splitext] *)

Lemma rfind_from_absent (c : N) (s : str) (i : Z) :
  c ∉ s → rfind_from c s i = (-1)%Z.
Proof.
  revert i. induction s as [|d s IH]; intros i Hc; simpl; [done |].
  apply not_elem_of_cons in Hc as [Hd Hs].
  rewrite IH by done. simpl.
  destruct (N.eqb_spec d c); congruence.
Qed.

Lemma rfind_from_last (c : N) (pre post : str) (i : Z) :
  c ∉ post → (0 ≤ i)%Z →
  rfind_from c (pre ++ c :: post) i = (i + Z.of_nat (length pre))%Z.
Proof.
  intros Hc. revert i. induction pre as [|d pre IH]; intros i Hi; simpl.
  - rewrite rfind_from_absent by done. simpl. rewrite N.eqb_refl. lia.
  - rewrite IH by lia.
    destruct (Z.leb_spec 0 (i + 1 + Z.of_nat (length pre))); lia.
Qed.

Lemma bound_in_range (s : str) (i : nat) :
  (i ≤ length s)%nat → bound s (Z.of_nat i) = i.
Proof.
  intros Hi. unfold bound.
  destruct (Z.ltb_spec (Z.of_nat i) 0); lia.
Qed.

Lemma slice_from_app (pre post : str) :
  slice_from (pre ++ post) (Z.of_nat (length pre)) = post.
Proof.
  unfold slice_from. rewrite bound_in_range by (rewrite length_app; lia).
  by rewrite drop_app_length.
Qed.

Lemma final_segment_split (pre post : str) :
  Posixpath.sep ∉ post →
  final_segment (pre ++ Posixpath.sep :: post) = post.
Proof.
  intros Hpost. induction pre as [|d pre IH]; simpl.
  - by rewrite bool_decide_eq_false_2.
  - rewrite bool_decide_eq_true_2; [done |].
    apply elem_of_app. right. left.
Qed.

Lemma final_segment_whole (p : str) :
  Posixpath.sep ∉ p → final_segment p = p.
Proof.
  induction p as [|d p IH]; simpl; [done |].
  intros [Hd Hp]%not_elem_of_cons.
  rewrite bool_decide_eq_false_2 by done.
  destruct (N.eqb_spec d Posixpath.sep); congruence.
Qed.

(** [os.path.basename] is the final path segment. *)
Lemma basename_final_segment (p : str) :
  Posixpath.basename p = final_segment p.
Proof.
  unfold Posixpath.basename, rfind.
  destruct (decide (Posixpath.sep ∈ p)) as [Hin | Hout].
  - apply list_elem_of_split_r in Hin as (pre & post & -> & Hpost).
    rewrite rfind_from_last by (done || lia).
    replace (0 + Z.of_nat (length pre) + 1)%Z
      with (Z.of_nat (length (pre ++ [Posixpath.sep])))
      by (rewrite length_app; simpl; lia).
    rewrite (cons_middle _ pre post), app_assoc, slice_from_app.
    rewrite <- app_assoc. simpl. by rewrite final_segment_split.
  - rewrite rfind_from_absent by done. simpl.
    change (slice_from p 0 = final_segment p).
    rewrite (slice_from_app [] p : slice_from p 0%Z = p).
    by rewrite final_segment_whole.
Qed.

Lemma from_last_dot_split (pre post : str) :
  Posixpath.extsep ∉ post →
  from_last_dot (pre ++ Posixpath.extsep :: post) = Posixpath.extsep :: post.
Proof.
  intros Hpost. induction pre as [|d pre IH]; simpl.
  - by rewrite bool_decide_eq_false_2.
  - rewrite bool_decide_eq_true_2; [done |].
    apply elem_of_app. right. left.
Qed.

Lemma slice_one (front rest : str) (a : N) :
  slice (front ++ a :: rest) (Z.of_nat (length front))
    (Z.of_nat (length front) + 1) = [a].
Proof.
  unfold slice.
  replace (Z.of_nat (length front) + 1)%Z
    with (Z.of_nat (S (length front))) by lia.
  rewrite !bound_in_range by (rewrite length_app; simpl; lia).
  rewrite drop_app_length.
  replace (S (length front) - length front)%nat with 1%nat by lia.
  done.
Qed.

Lemma regroup (front mid rest : str) (a : N) :
  front ++ a :: mid ++ rest = (front ++ a :: mid) ++ rest.
Proof. by rewrite <- app_assoc. Qed.

(** [splitext] on a path whose last segment is [a :: mid ++ '.' :: post]. *)
Lemma splitext_split (front mid post : str) (a : N) :
  rfind (front ++ a :: mid ++ Posixpath.extsep :: post) Posixpath.sep
    = (Z.of_nat (length front) - 1)%Z →
  Posixpath.extsep ∉ post →
  a ≠ Posixpath.extsep →
  Posixpath.splitext (front ++ a :: mid ++ Posixpath.extsep :: post)
    = (front ++ a :: mid, Posixpath.extsep :: post).
Proof.
  intros Hsep Hpost Ha.
  unfold Posixpath.splitext, Posixpath._splitext. rewrite Hsep.
  assert (Hdot : rfind (front ++ a :: mid ++ Posixpath.extsep :: post)
                   Posixpath.extsep
                 = Z.of_nat (length (front ++ a :: mid))).
  { unfold rfind. rewrite regroup.
    rewrite rfind_from_last by (done || lia). lia. }
  rewrite Hdot. cbv zeta.
  replace (Z.of_nat (length front) - 1 <? Z.of_nat (length (front ++ a :: mid)))%Z
    with true by (symmetry; apply Z.ltb_lt; rewrite length_app; lia).
  replace (Z.of_nat (length front) - 1 + 1)%Z with (Z.of_nat (length front)) by lia.
  replace (Z.to_nat (Z.of_nat (length (front ++ a :: mid)) - Z.of_nat (length front)))
    with (S (length mid)) by (rewrite length_app; simpl; lia).
  simpl Posixpath._splitext_loop.
  rewrite slice_one.
  unfold Str.eqb. rewrite bool_decide_eq_false_2 by congruence. simpl negb. cbv iota.
  rewrite regroup. f_equal.
  - unfold slice_to. rewrite bound_in_range by (rewrite !length_app; simpl; lia).
    by rewrite take_app_length.
  - apply slice_from_app.
Qed.

Lemma contains_char (c : N) (s : str) :
  contains [c] s = true ↔ c ∈ s.
Proof.
  rewrite contains_occurs. unfold occurs_in. split.
  - intros (pre & post & ->). apply elem_of_app. right. left.
  - intros (pre & post & ->)%list_elem_of_split. by exists pre, post.
Qed.

(** Past the hidden-file check, the extension that [splitext] returns is the
    substring from the last dot of the path. *)
Lemma splitext_from_last_dot (p : str) :
  ¬ occurs_in (py "/.") p →
  ¬ begins_with (py ".") p →
  Posixpath.extsep ∈ final_segment p →
  snd (Posixpath.splitext p) = from_last_dot p.
Proof.
  intros Hhid Hbeg Hdot.
  destruct (decide (Posixpath.sep ∈ p)) as [Hin | Hout].
  - apply list_elem_of_split_r in Hin as (pre1 & b & -> & Hb).
    rewrite final_segment_split in Hdot by done.
    apply list_elem_of_split_r in Hdot as (pre2 & post & -> & Hpost).
    destruct pre2 as [|a mid].
    { destruct Hhid. by exists pre1, post. }
    destruct (decide (a = Posixpath.extsep)) as [-> | Ha].
    { destruct Hhid. by exists pre1, (mid ++ Posixpath.extsep :: post). }
    assert (Hsep : rfind (pre1 ++ Posixpath.sep :: (a :: mid) ++ Posixpath.extsep :: post)
                     Posixpath.sep = Z.of_nat (length pre1)).
    { unfold rfind. rewrite rfind_from_last by (done || lia). lia. }
    revert Hsep.
    rewrite (cons_middle Posixpath.sep pre1), app_assoc. simpl.
    intros Hsep.
    rewrite splitext_split; [| rewrite Hsep, length_app; simpl; lia | done | done].
    simpl. rewrite regroup. by rewrite from_last_dot_split.
  - rewrite final_segment_whole in Hdot by done.
    apply list_elem_of_split_r in Hdot as (pre2 & post & -> & Hpost).
    destruct pre2 as [|a mid].
    { destruct Hbeg. by exists post. }
    destruct (decide (a = Posixpath.extsep)) as [-> | Ha].
    { destruct Hbeg. by exists (mid ++ Posixpath.extsep :: post). }
    pose proof (splitext_split [] mid post a) as Hsplit.
    simpl in Hsplit. simpl app. rewrite Hsplit; [| | done | done].
    + cbn [snd]. symmetry. by apply (from_last_dot_split (a :: mid) post).
    + unfold rfind. by rewrite rfind_from_absent.
Qed.

(** The constant of the module and the set of the specification. *)
Lemma allowed_extensions_whitelist (ext : str) :
  ext ∈ ALLOWED_EXTENSIONS module_globals ↔ ext ∈ whitelist.
Proof.
  unfold module_globals, whitelist. cbn [ALLOWED_EXTENSIONS List.map].
  rewrite !elem_of_union, !elem_of_singleton, !elem_of_cons, elem_of_nil.
  tauto.
Qed.

(** ** Methods, run on a handler *)

Lemma upd_self (h : handler) :
  upd (close_connection h) (_headers_buffer h) (wfile h) (stdout h) h = h.
Proof. by destruct h. Qed.

Lemma bind_return {A B : Type} (m : M A) (k : A → M B) (h h' : handler) (a : A) :
  m h = (Return a, h') → (m ≫= k) h = k a h'.
Proof. intros E. unfold mbind, M_bind. by rewrite E. Qed.

Lemma connection_flag_other (env : Env) (k v : str) (c : bool) :
  Str.eqb (lower env k) (py "connection") = false →
  connection_flag env k v c = c.
Proof. intros E. unfold connection_flag. by rewrite E. Qed.

Lemma send_header_run (env : Env) (k v : str) c b w o h :
  BaseHTTPRequestHandler.send_header env k v (upd c b w o h)
  = (Return tt, upd (connection_flag env k v c) (b ++ [HeaderLine k v]) w o h).
Proof.
  unfold BaseHTTPRequestHandler.send_header, connection_flag.
  unfold mbind, M_bind, modify. cbn.
  repeat case_match; reflexivity.
Qed.

(** A header other than [Connection]. *)
Lemma send_header_other (env : Env) (k v : str) c b w o h :
  Str.eqb (lower env k) (py "connection") = false →
  BaseHTTPRequestHandler.send_header env k v (upd c b w o h)
  = (Return tt, upd c (b ++ [HeaderLine k v]) w o h).
Proof.
  intros E. by rewrite send_header_run, connection_flag_other.
Qed.

Ltac send_other :=
  erewrite bind_return by (apply send_header_other; vm_compute; reflexivity).

Lemma end_headers_run (env : Env) c b w o h :
  SecureHTTPRequestHandler.end_headers env (upd c b w o h)
  = (Return tt, upd c [] (w ++ [Lines (b ++ policy_lines ++ [BlankLine])]) o h).
Proof.
  unfold SecureHTTPRequestHandler.end_headers.
  do 8 send_other.
  unfold BaseHTTPRequestHandler.end_headers, BaseHTTPRequestHandler.flush_headers.
  unfold mbind, M_bind, modify. cbn [_headers_buffer wfile upd set_headers_buffer set_wfile
    client_address requestline command path headers close_connection stdout].
  rewrite <- !app_assoc. reflexivity.
Qed.

Lemma log_message_run (format a : str) (args : list str) c b w o h :
  SecureHTTPRequestHandler.log_message format (a :: args) (upd c b w o h)
  = (Return tt, upd c b w (o ++ [Logged (fst (client_address h)) a]) h).
Proof. reflexivity. Qed.

Lemma send_response_run (env : Env) (code : N) (message : option str) c b w o h :
  ∃ phrase,
    BaseHTTPRequestHandler.send_response env
      SecureHTTPRequestHandler.log_message code message (upd c b w o h)
    = (Return tt,
       upd c
         (b ++ [StatusLine (protocol_version env) code phrase;
                HeaderLine (py "Server") (version_string env);
                HeaderLine (py "Date") (date_time_string env)])
         w (o ++ [Logged (fst (client_address h)) (requestline h)]) h).
Proof.
  eexists. unfold BaseHTTPRequestHandler.send_response.
  erewrite bind_return by (unfold BaseHTTPRequestHandler.log_request;
    erewrite bind_return by reflexivity; apply log_message_run).
  erewrite bind_return by reflexivity.
  send_other.
  rewrite send_header_other by (vm_compute; reflexivity).
  cbn [_headers_buffer upd set_headers_buffer
    client_address requestline command path headers close_connection wfile stdout].
  rewrite <- !app_assoc. reflexivity.
Qed.

(** An error response with a body: codes 403, 404, 405 and 501 here. *)
Lemma send_error_run (env : Env) (code : N) (message : str) c b w o h :
  has_body code = true →
  ∃ head payload,
    SecureHTTPRequestHandler.send_error env code (Some message) None
      (upd c b w o h)
    = (Return tt,
       upd true []
         (w ++ Lines (b ++ StatusLine (protocol_version env) code message ::
                      head ++ policy_lines ++ [BlankLine]) :: payload)
         (o ++ [Logged (fst (client_address h)) (of_N code);
                Logged (fst (client_address h)) (requestline h)]) h)
    ∧ forallb is_header head = true
    ∧ forallb is_payload payload = true.
Proof.
  intros Hbody. unfold has_body in Hbody.
  unfold SecureHTTPRequestHandler.send_error, BaseHTTPRequestHandler.send_error.
  destruct (match responses env code with
            | Some p => p
            | None => (py "???", py "???")
            end) as [shortmsg longmsg].
  cbn [from_option id]. rewrite Hbody.
  set (body := error_page env code message longmsg).
  exists [HeaderLine (py "Server") (version_string env);
          HeaderLine (py "Date") (date_time_string env);
          HeaderLine (py "Connection") (py "close");
          HeaderLine (py "Content-Type") (error_content_type env);
          HeaderLine (py "Content-Length") (of_N (N.of_nat (length body)))].
  exists (match body with
          | [] => []
          | _ :: _ =>
              if negb (Str.eqb (command h) (py "HEAD")) then [Payload body]
              else []
          end).
  split; [| split; [reflexivity | by repeat case_match]].
  erewrite bind_return by apply log_message_run.
  destruct (send_response_run env code (Some message) c b w
              (o ++ [Logged (fst (client_address h)) (of_N code)]) h)
    as [phrase Hresp].
  assert (phrase = message) as ->.
  { revert Hresp. unfold BaseHTTPRequestHandler.send_response.
    erewrite bind_return by (unfold BaseHTTPRequestHandler.log_request;
      erewrite bind_return by reflexivity; apply log_message_run).
    erewrite bind_return by reflexivity.
    send_other.
    rewrite send_header_other by (vm_compute; reflexivity).
    cbn [_headers_buffer upd set_headers_buffer
      client_address requestline command path headers close_connection wfile stdout].
    rewrite <- !app_assoc. cbn [app].
    intros [= E]. apply app_inv_head in E. congruence. }
  erewrite bind_return by apply Hresp.
  erewrite bind_return by apply send_header_run.
  replace (connection_flag env (py "Connection") (py "close") c) with true
    by (vm_compute; reflexivity).
  erewrite bind_return.
  2:{ send_other. send_other. reflexivity. }
  erewrite bind_return by apply end_headers_run.
  erewrite bind_return by reflexivity.
  cbn [command upd]. rewrite <- !app_assoc. cbn [app].
  destruct body as [|x body']; [reflexivity |].
  destruct (negb (Str.eqb (command h) (py "HEAD"))); [| reflexivity].
  unfold BaseHTTPRequestHandler.wfile_write, modify.
  cbn [_headers_buffer upd set_wfile
    client_address requestline command path headers close_connection wfile stdout].
  rewrite <- !app_assoc. reflexivity.
Qed.

Lemma upd_set_stdout c b w o o' h :
  upd c b w o (set_stdout o' h) = upd c b w o h.
Proof. reflexivity. Qed.

Lemma send_error_responds (env : Env) (code : N) (message : str) (h : handler) :
  has_body code = true →
  ∃ h',
    SecureHTTPRequestHandler.send_error env code (Some message) None h
      = (Return tt, h')
    ∧ responded env code
        [Logged (fst (client_address h)) (of_N code);
         Logged (fst (client_address h)) (requestline h)] h h'.
Proof.
  intros Hbody.
  destruct (send_error_run env code message (close_connection h)
              (_headers_buffer h) (wfile h) (stdout h) h Hbody)
    as (head & payload & Hrun & Hhead & Hpayload).
  rewrite upd_self in Hrun. eexists. split; [exact Hrun |].
  by exists true, message, head, payload.
Qed.

(** A body written after the header block stays part of the response. *)
Lemma responded_write (env : Env) (code : N) logs (h h' : handler) (body : list N) :
  responded env code logs h h' →
  ∃ h'',
    BaseHTTPRequestHandler.wfile_write body h' = (Return tt, h'')
    ∧ responded env code logs h h''.
Proof.
  intros (c & message & head & payload & -> & Hhead & Hpayload).
  eexists. split; [reflexivity |].
  exists c, message, head, (payload ++ [Payload body]).
  split; [| split; [done |]].
  - cbn [_headers_buffer upd set_wfile
      client_address requestline command path headers close_connection wfile stdout].
    by rewrite <- app_assoc.
  - rewrite forallb_app, Hpayload. reflexivity.
Qed.

(** A diagnostic printed before the response is one more line of its log. *)
Lemma responded_after_print (env : Env) (code : N) logs (l : printed)
    (h h' : handler) :
  responded env code logs (set_stdout (stdout h ++ [l]) h) h' →
  responded env code (l :: logs) h h'.
Proof.
  intros (c & message & head & payload & -> & Hhead & Hpayload).
  exists c, message, head, payload. split; [| done].
  cbn [_headers_buffer set_stdout wfile stdout]. rewrite upd_set_stdout.
  by rewrite <- app_assoc.
Qed.

Ltac send_head_branch :=
  repeat first
    [ erewrite bind_return by apply end_headers_run
    | erewrite bind_return by (apply send_header_other; vm_compute; reflexivity)
    | erewrite bind_return by reflexivity ].

(** [send_head] answers with one of four codes, and with 200 exactly when it
    hands back a file. *)
Lemma send_head_responds (env : Env) (h : handler) :
  ∃ code f h',
    SimpleHTTPRequestHandler.send_head env SecureHTTPRequestHandler.log_message
      (SecureHTTPRequestHandler.end_headers env) h = (Return f, h')
    ∧ (∃ logs, responded env code logs h h' ∧ forallb is_logged logs = true)
    ∧ code ∈ [200; 301; 304; 404]
    ∧ (served (fs env (path h) (headers h)) = true → code = 200 ∧ is_Some f)
    ∧ (is_Some f → served (fs env (path h) (headers h)) = true).
Proof.
  unfold SimpleHTTPRequestHandler.send_head.
  erewrite bind_return by reflexivity.
  erewrite bind_return by reflexivity.
  destruct (fs env (path h) (headers h))
    as [new_url | enc len listing | | | | ctype size mtime content].
  - destruct (send_response_run env 301 None (close_connection h)
                (_headers_buffer h) (wfile h) (stdout h) h) as [phrase Hresp].
    rewrite upd_self in Hresp.
    exists 301, None. eexists. split.
    { erewrite bind_return by apply Hresp. send_head_branch. reflexivity. }
    split.
    { exists [Logged (fst (client_address h)) (requestline h)].
      split; [| reflexivity].
      exists (close_connection h), phrase.
      eexists [_; _; _; _], [].
      split; [rewrite <- !app_assoc; reflexivity | done]. }
    split; [repeat constructor | split; [done | intros []; done]].
  - destruct (send_response_run env 200 None (close_connection h)
                (_headers_buffer h) (wfile h) (stdout h) h) as [phrase Hresp].
    rewrite upd_self in Hresp.
    exists 200, (Some listing). eexists. split.
    { erewrite bind_return by apply Hresp. send_head_branch. reflexivity. }
    split.
    { exists [Logged (fst (client_address h)) (requestline h)].
      split; [| reflexivity].
      exists (close_connection h), phrase.
      eexists [_; _; _; _], [].
      split; [rewrite <- !app_assoc; reflexivity | done]. }
    split; [repeat constructor | done].
  - destruct (send_error_responds env 404 (py "No permission to list directory") h eq_refl)
      as (h' & Hrun & Hresp).
    exists 404, None, h'. split.
    { unfold SecureHTTPRequestHandler.send_error in Hrun.
      erewrite bind_return by apply Hrun. reflexivity. }
    split; [by eexists |].
    split; [repeat constructor | split; [done | intros []; done]].
  - destruct (send_error_responds env 404 (py "File not found") h eq_refl)
      as (h' & Hrun & Hresp).
    exists 404, None, h'. split.
    { unfold SecureHTTPRequestHandler.send_error in Hrun.
      erewrite bind_return by apply Hrun. reflexivity. }
    split; [by eexists |].
    split; [repeat constructor | split; [done | intros []; done]].
  - destruct (send_response_run env 304 None (close_connection h)
                (_headers_buffer h) (wfile h) (stdout h) h) as [phrase Hresp].
    rewrite upd_self in Hresp.
    exists 304, None. eexists. split.
    { erewrite bind_return by apply Hresp. send_head_branch. reflexivity. }
    split.
    { exists [Logged (fst (client_address h)) (requestline h)].
      split; [| reflexivity].
      exists (close_connection h), phrase.
      eexists [_; _], [].
      split; [rewrite <- !app_assoc; reflexivity | done]. }
    split; [repeat constructor | split; [done | intros []; done]].
  - destruct (send_response_run env 200 None (close_connection h)
                (_headers_buffer h) (wfile h) (stdout h) h) as [phrase Hresp].
    rewrite upd_self in Hresp.
    exists 200, (Some content). eexists. split.
    { erewrite bind_return by apply Hresp. send_head_branch. reflexivity. }
    split.
    { exists [Logged (fst (client_address h)) (requestline h)].
      split; [| reflexivity].
      exists (close_connection h), phrase.
      eexists [_; _; _; _; _], [].
      split; [rewrite <- !app_assoc; reflexivity | done]. }
    split; [repeat constructor | done].
Qed.

Lemma simple_do_HEAD_responds (env : Env) (h : handler) :
  ∃ code h',
    SimpleHTTPRequestHandler.do_HEAD env SecureHTTPRequestHandler.log_message
      (SecureHTTPRequestHandler.end_headers env) h = (Return tt, h')
    ∧ (∃ logs, responded env code logs h h' ∧ forallb is_logged logs = true)
    ∧ code ∈ [200; 301; 304; 404]
    ∧ (served (fs env (path h) (headers h)) = true → code = 200).
Proof.
  destruct (send_head_responds env h)
    as (code & f & h' & Hrun & Hresp & Hcode & Hserved & _).
  exists code, h'. split.
  { unfold SimpleHTTPRequestHandler.do_HEAD.
    erewrite bind_return by apply Hrun. reflexivity. }
  split; [done |]. split; [done |]. intros Hs. by apply Hserved.
Qed.

Lemma simple_do_GET_responds (env : Env) (h : handler) :
  ∃ code h',
    SimpleHTTPRequestHandler.do_GET env SecureHTTPRequestHandler.log_message
      (SecureHTTPRequestHandler.end_headers env) h = (Return tt, h')
    ∧ (∃ logs, responded env code logs h h' ∧ forallb is_logged logs = true)
    ∧ code ∈ [200; 301; 304; 404]
    ∧ (served (fs env (path h) (headers h)) = true → code = 200).
Proof.
  destruct (send_head_responds env h)
    as (code & f & h' & Hrun & (logs & Hresp & Hlogs) & Hcode & Hserved & _).
  unfold SimpleHTTPRequestHandler.do_GET.
  destruct f as [content |].
  - destruct (responded_write env code logs h h' content Hresp)
      as (h'' & Hwrite & Hresp').
    exists code, h''. split.
    { erewrite bind_return by apply Hrun. exact Hwrite. }
    split; [by exists logs |]. split; [done |]. intros Hs. by apply Hserved.
  - exists code, h'. split.
    { erewrite bind_return by apply Hrun. reflexivity. }
    split; [by exists logs |]. split; [done |]. intros Hs. by apply Hserved.
Qed.

(** The two ways out of [do_GET]: 403 behind a diagnostic, or the file
    responder. *)
Lemma do_GET_run (g : globals) (env : Env) (h : handler) :
  match SecureHTTPRequestHandler.is_safe_path g env (path h) h with
  | (Return false, h1) =>
      SecureHTTPRequestHandler.do_GET g env h
      = SecureHTTPRequestHandler.send_error env 403 (Some (py "Forbidden")) None h1
  | (Return true, h1) =>
      h1 = h ∧
      SecureHTTPRequestHandler.do_GET g env h
      = SimpleHTTPRequestHandler.do_GET env SecureHTTPRequestHandler.log_message
          (SecureHTTPRequestHandler.end_headers env) h
  | (Raise _, _) => False
  end.
Proof.
  unfold SecureHTTPRequestHandler.do_GET.
  erewrite bind_return by reflexivity.
  destruct (SecureHTTPRequestHandler.is_safe_path g env (path h) h)
    as [[[|] | e] h1] eqn:E.
  - erewrite bind_return by exact E.
    assert (h1 = h) as ->.
    { rewrite is_safe_path_run in E. cbv zeta in E.
      repeat case_match; by simplify_eq. }
    split; reflexivity.
  - erewrite bind_return by exact E. reflexivity.
  - rewrite is_safe_path_run in E. cbv zeta in E.
    repeat case_match; by simplify_eq.
Qed.

Lemma getattr_dispatch (g : globals) (env : Env) (cmd : str) :
  SecureHTTPRequestHandler.getattr g env (py "do_" ++ cmd) = dispatch g env cmd.
Proof.
  unfold SecureHTTPRequestHandler.getattr, SecureHTTPRequestHandler.methods,
    SimpleHTTPRequestHandler.methods, dispatch, Str.eqb.
  cbn [app List.find fst snd].
  change (py "do_GET") with (py "do_" ++ py "GET").
  change (py "do_POST") with (py "do_" ++ py "POST").
  change (py "do_PUT") with (py "do_" ++ py "PUT").
  change (py "do_DELETE") with (py "do_" ++ py "DELETE").
  change (py "do_HEAD") with (py "do_" ++ py "HEAD").
  repeat (case_bool_decide; case_decide; simplify_list_eq; try done).
Qed.

Lemma handle_one_request_run (g : globals) (env : Env) (h : handler) :
  SecureHTTPRequestHandler.handle_one_request g env h =
  match dispatch g env (command h) with
  | Some method => method h
  | None =>
      SecureHTTPRequestHandler.send_error env 501
        (Some (py "Unsupported method (" ++ repr env (command h) ++ py ")"))
        None h
  end.
Proof.
  unfold SecureHTTPRequestHandler.handle_one_request,
    BaseHTTPRequestHandler.handle_one_request.
  erewrite bind_return by reflexivity.
  rewrite getattr_dispatch. by destruct (dispatch g env (command h)).
Qed.

(** ** What a response shows on the socket *)

Lemma headers_have_no_status (ls : list line) :
  forallb is_header ls = true →
  omap (λ l, match l with StatusLine _ code _ => Some code | _ => None end) ls
  = [].
Proof.
  induction ls as [|[] ls IH]; simpl; try done.
  intros [_ H]%andb_true_iff. by apply IH.
Qed.

Lemma payloads_have_no_lines (cs : list chunk) :
  forallb is_payload cs = true → List.concat (List.map lines_of cs) = [].
Proof.
  induction cs as [|[] cs IH]; simpl; done.
Qed.

Lemma responded_status (env : Env) (code : N) logs (h h' : handler) :
  fresh h → responded env code logs h h' → status (wfile h') = Some code.
Proof.
  intros [Hbuf Hw] (c & message & head & payload & -> & Hhead & Hpayload).
  cbn [wfile upd]. rewrite Hbuf, Hw. cbn [app].
  unfold status, status_codes, sent_lines.
  cbn [List.map lines_of List.concat].
  rewrite payloads_have_no_lines by done. rewrite app_nil_r.
  cbn [omap list_omap]. rewrite omap_app.
  rewrite headers_have_no_status by done.
  reflexivity.
Qed.

Lemma responded_policy (env : Env) (code : N) logs (h h' : handler) :
  responded env code logs h h' → carries_policy (wfile h').
Proof.
  intros (c & message & head & payload & -> & _ & _).
  cbn [wfile upd]. unfold carries_policy, has_header.
  apply Forall_forall. intros [k v] Hkv. cbn [fst snd].
  unfold sent_lines. rewrite map_app, concat_app.
  apply elem_of_app. right. cbn [List.map lines_of List.concat].
  apply elem_of_app. left.
  apply elem_of_app. right. right.
  apply elem_of_app. right.
  apply elem_of_app. left.
  unfold policy_lines.
  apply list_elem_of_In.
  apply (in_map (λ kv : str * str, HeaderLine (fst kv) (snd kv))
           header_policy (k, v)).
  by apply list_elem_of_In.
Qed.

Lemma responded_only_policy (env : Env) (code : N) logs (h h' : handler) :
  fresh h → responded env code logs h h' → only_policy (wfile h').
Proof.
  intros [Hbuf Hw] (c & message & head & payload & -> & Hhead & Hpayload).
  cbn [wfile upd]. rewrite Hbuf, Hw. cbn [app].
  unfold only_policy, has_header, sent_lines.
  cbn [List.map lines_of List.concat].
  rewrite payloads_have_no_lines by done. rewrite app_nil_r.
  intros k v Hin Hk.
  apply elem_of_cons in Hin as [[=] | Hin].
  apply elem_of_app in Hin as [Hin | Hin].
  - rewrite forallb_forall in Hhead.
    apply list_elem_of_In, Hhead in Hin. cbn [is_header] in Hin.
    apply negb_true_iff, bool_decide_eq_false in Hin. by destruct Hin.
  - apply elem_of_app in Hin as [Hin | Hin].
    + unfold policy_lines in Hin.
      apply list_elem_of_In, in_map_iff in Hin as ([k' v'] & [= -> ->] & Hrow).
      by apply list_elem_of_In.
    + apply elem_of_cons in Hin as [[=] | Hin]. by apply elem_of_nil in Hin.
Qed.

Lemma responded_stdout (env : Env) (code : N) logs (h h' : handler) :
  responded env code logs h h' → stdout h' = stdout h ++ logs.
Proof. by intros (c & message & head & payload & -> & _ & _). Qed.

(** * Running the model *)

(** CPython's decoder returns on every string. *)
Lemma urllib_unquote_returns (s : str) : ∃ p, Urllib.unquote s = inr p.
Proof. unfold Urllib.unquote. case_match; by eexists. Qed.

Example unquote_dots : Urllib.unquote (py "/%2e%2E/x") = inr (py "/../x").
Proof. reflexivity. Qed.

Example unquote_malformed : Urllib.unquote (py "/a%zz%4") = inr (py "/a%zz%4").
Proof. reflexivity. Qed.

Example unquote_ill_formed_utf8 :
  Urllib.unquote (py "%C3%28") = inr [Urllib.replacement; 40].
Proof. reflexivity. Qed.

Example normpath_collapses :
  Posixpath.normpath (py "/a/./b/") = py "/a/b".
Proof. reflexivity. Qed.

Example splitext_last_dot :
  Posixpath.splitext (py "/a/b.tar.gz") = (py "/a/b.tar", py ".gz").
Proof. reflexivity. Qed.

Example splitext_leading_dot :
  Posixpath.splitext (py "/a/.bashrc") = (py "/a/.bashrc", []).
Proof. reflexivity. Qed.

(** The end-to-end scenarios of the specification, on [host]. *)

Example scenario_get_index :
  status (wfile (serve (request "GET" "/index.html"))) = Some 200
  ∧ stdout (serve (request "GET" "/index.html"))
    = [Logged (py "192.168.1.7") (py "GET /index.html HTTP/1.1")].
Proof. split; vm_compute; reflexivity. Qed.

Example scenario_get_traversal :
  status (wfile (serve (request "GET" "/../etc/passwd"))) = Some 403
  ∧ stdout (serve (request "GET" "/../etc/passwd"))
    = [Blocked Traversal (py "/../etc/passwd");
       Logged (py "192.168.1.7") (py "403");
       Logged (py "192.168.1.7") (py "GET /../etc/passwd HTTP/1.1")].
Proof. split; vm_compute; reflexivity. Qed.

Example scenario_get_hidden :
  status (wfile (serve (request "GET" "/.git/config"))) = Some 403
  ∧ hd_error (stdout (serve (request "GET" "/.git/config")))
    = Some (Blocked HiddenFile (py "/.git/config")).
Proof. split; vm_compute; reflexivity. Qed.

Example scenario_get_exe :
  status (wfile (serve (request "GET" "/data.exe"))) = Some 403
  ∧ hd_error (stdout (serve (request "GET" "/data.exe")))
    = Some (Blocked FileType (py "/data.exe")).
Proof. split; vm_compute; reflexivity. Qed.

Example scenario_post :
  status (wfile (serve (request "POST" "/index.html"))) = Some 405.
Proof. vm_compute. reflexivity. Qed.

Example scenario_get_directory :
  fst (SecureHTTPRequestHandler.is_safe_path module_globals host
         (py "/assets/") (request "GET" "/assets/")) = Return true
  ∧ status (wfile (serve (request "GET" "/assets/"))) = Some 404.
Proof. split; vm_compute; reflexivity. Qed.

Example blocked_line_text :
  blocked_text FileType (py "/data.exe")
  = warning_sign ++ py "  Blocked disallowed file type: /data.exe".
Proof. reflexivity. Qed.

(** * Main results *)

(** ** The Validator *)

Section Validator.

Context (g : globals) (env : Env).

Local Abbreviation is_safe_path :=
  (SecureHTTPRequestHandler.is_safe_path g env).
Local Abbreviation is_safe_path_utf8 :=
  (SecureHTTPRequestHandler.is_safe_path_utf8 g env).

(** C3. A request path that, after query stripping and percent-decoding,
    contains [..] anywhere or [//] anywhere is denied, and the diagnostic
    is the path-traversal one, whatever surrounds the two characters. *)
Theorem traversal_is_denied (raw : str) (h : handler) :
  occurs_in (py "..") (decoded env raw) ∨ occurs_in (py "//") (decoded env raw) →
  is_safe_path raw h
  = (Return false,
     set_stdout (stdout h ++ [Blocked Traversal (decoded env raw)]) h).
Proof.
  intros Hocc. rewrite is_safe_path_run. cbv zeta.
  replace (contains (py "..") (decoded env raw)
           || contains (py "//") (decoded env raw)) with true; [done |].
  symmetry. apply orb_true_iff.
  destruct Hocc as [H | H]; [left | right]; by apply contains_occurs.
Qed.

(** C4. A path (stripped, decoded, not rejected for traversal) that
    contains [/.] anywhere or begins with [.] is denied with the
    hidden-file diagnostic. The allowed extensions play no part ([g] is
    arbitrary): the check runs before the extension check, so [/.env.json]
    is neither allowed nor denied for its file type. *)
Theorem hidden_file_is_denied (raw : str) (h : handler) :
  ¬ occurs_in (py "..") (decoded env raw) →
  ¬ occurs_in (py "//") (decoded env raw) →
  occurs_in (py "/.") (decoded env raw) ∨ begins_with (py ".") (decoded env raw) →
  is_safe_path raw h
  = (Return false,
     set_stdout (stdout h ++ [Blocked HiddenFile (decoded env raw)]) h).
Proof.
  intros Hdots Hslashes Hhidden. rewrite is_safe_path_run. cbv zeta.
  replace (contains (py "..") (decoded env raw)
           || contains (py "//") (decoded env raw)) with false.
  - replace (contains (py "/.") (decoded env raw)
             || startswith (decoded env raw) (py ".")) with true; [done |].
    symmetry. apply orb_true_iff.
    destruct Hhidden as [H | H]; [left | right].
    + by apply contains_occurs.
    + by apply startswith_begins.
  - symmetry. apply orb_false_iff. split; apply not_true_is_false.
    + by intros H%contains_occurs.
    + by intros H%contains_occurs.
Qed.


(** C7. The Validator is a deterministic function of the path string: the
    verdict does not depend on the handler it runs on, a second call
    returns the same verdict, and the only effect of a call is at most one
    diagnostic line on standard output. *)
Theorem validator_is_pure (raw : str) (h1 h2 : handler) :
  result (is_safe_path raw) h1 = result (is_safe_path raw) h2
  ∧ result (is_safe_path raw) (after (is_safe_path raw) h1)
    = result (is_safe_path raw) h1
  ∧ ∃ diagnostic : list printed,
      (diagnostic = [] ∨ ∃ why, diagnostic = [Blocked why (decoded env raw)])
      ∧ after (is_safe_path raw) h1
        = upd (close_connection h1) (_headers_buffer h1) (wfile h1)
            (stdout h1 ++ diagnostic) h1.
Proof.
  unfold result, after. rewrite !is_safe_path_run. cbv zeta.
  split; [| split].
  - repeat case_match; reflexivity.
  - repeat case_match; reflexivity.
  - repeat case_match; cbn [snd];
      try (eexists; split; [right; by eexists | by destruct h1]).
    exists []. split; [by left |]. rewrite app_nil_r. by destruct h1.
Qed.

(** C8. Normalization ([os.path.normpath] and the removal of one leading
    separator) does not act on the verdict: the Validator as written and
    the Validator without these lines are the same function, so no check
    of the normalized form against the server root takes place. *)
Theorem normalization_is_unused (raw : str) (h : handler) :
  is_safe_path raw h = is_safe_path_without_normalization g env raw h.
Proof. reflexivity. Qed.

End Validator.

(** C5. For a path that passes the traversal and hidden-file checks: when
    the final segment contains a dot, the path is allowed exactly when the
    lower-cased substring from its last dot is one of the fourteen listed
    extensions, and denied with the file-type diagnostic otherwise; when the
    final segment has no dot, the path is allowed, whatever the file system
    holds (the file system is not consulted). *)
Theorem extension_whitelist (env : Env) (raw : str) (h : handler) :
  let p := decoded env raw in
  let ext := lower env (from_last_dot p) in
  let run := SecureHTTPRequestHandler.is_safe_path module_globals env raw h in
  ¬ occurs_in (py "..") p → ¬ occurs_in (py "//") p →
  ¬ occurs_in (py "/.") p → ¬ begins_with (py ".") p →
  (Posixpath.extsep ∈ final_segment p →
     (fst run = Return true ↔ ext ∈ whitelist)
     ∧ (ext ∈ whitelist → run = (Return true, h))
     ∧ (ext ∉ whitelist →
        run = (Return false, set_stdout (stdout h ++ [Blocked FileType p]) h)))
  ∧ (Posixpath.extsep ∉ final_segment p → run = (Return true, h)).
Proof.
  intros p ext run Hdots Hslashes Hhidden Hbegins.
  assert (Hrun : run =
    if contains (py ".") (Posixpath.basename p)
       && negb (bool_decide (lower env (snd (Posixpath.splitext p))
                             ∈ ALLOWED_EXTENSIONS module_globals))
    then (Return false, set_stdout (stdout h ++ [Blocked FileType p]) h)
    else (Return true, h)).
  { unfold run. rewrite is_safe_path_run. cbv zeta. fold p.
    replace (contains (py "..") p || contains (py "//") p) with false.
    - replace (contains (py "/.") p || startswith p (py ".")) with false; [done |].
      symmetry. apply orb_false_iff. split; apply not_true_is_false.
      + by intros H%contains_occurs.
      + by intros H%startswith_begins.
    - symmetry. apply orb_false_iff. split; apply not_true_is_false.
      + by intros H%contains_occurs.
      + by intros H%contains_occurs. }
  rewrite basename_final_segment in Hrun.
  change (py ".") with [Posixpath.extsep] in Hrun.
  split.
  - intros Hdot.
    rewrite (proj2 (contains_char Posixpath.extsep (final_segment p)) Hdot) in Hrun.
    rewrite splitext_from_last_dot in Hrun by done. fold ext in Hrun.
    cbn [andb] in Hrun.
    destruct (decide (ext ∈ whitelist)) as [Hin | Hout].
    + rewrite bool_decide_eq_true_2 in Hrun
        by (by apply allowed_extensions_whitelist).
      cbn [negb] in Hrun. rewrite Hrun. cbn [fst]. by repeat split.
    + rewrite bool_decide_eq_false_2 in Hrun
        by (by rewrite allowed_extensions_whitelist).
      cbn [negb] in Hrun. rewrite Hrun. cbn [fst]. by repeat split.
  - intros Hnodot.
    replace (contains [Posixpath.extsep] (final_segment p)) with false in Hrun;
      [done |].
    symmetry. apply not_true_is_false.
    by intros H%(contains_char Posixpath.extsep).
Qed.

(** ** The constants of the module *)

(** C10. [ALLOWED_PATHS] is never read: with any other value in its place
    (the empty set removes it) every request gets the same verdict and the
    same response, byte for byte. [ALLOWED_EXTENSIONS] is read: without
    [.html] in it, [/index.html] is denied. *)
Theorem allowed_paths_is_unused (paths : gset str) (g : globals) (env : Env)
    (h : handler) :
  SecureHTTPRequestHandler.handle_one_request (with_allowed_paths paths g) env h
  = SecureHTTPRequestHandler.handle_one_request g env h
  ∧ (∀ raw : str,
       SecureHTTPRequestHandler.is_safe_path (with_allowed_paths paths g) env raw h
       = SecureHTTPRequestHandler.is_safe_path g env raw h)
  ∧ fst (SecureHTTPRequestHandler.is_safe_path module_globals host
           (py "/index.html") (request "GET" "/index.html")) = Return true
  ∧ fst (SecureHTTPRequestHandler.is_safe_path
           (with_allowed_extensions {[ py ".css" ]} module_globals) host
           (py "/index.html") (request "GET" "/index.html")) = Return false.
Proof.
  split; [| split; [| split]].
  - rewrite !handle_one_request_run. unfold dispatch.
    repeat case_decide; try reflexivity.
  - intros raw. reflexivity.
  - vm_compute. reflexivity.
  - vm_compute. reflexivity.
Qed.

(** ** The request handler *)

(** Every request is answered, with one status line, and the header block of
    the answer ends with the headers of [end_headers]. *)
Lemma handle_one_request_responds (g : globals) (env : Env) (h : handler) :
  ∃ code logs h',
    SecureHTTPRequestHandler.handle_one_request g env h = (Return tt, h')
    ∧ responded env code logs h h'
    ∧ (command h = py "GET" →
       fst (SecureHTTPRequestHandler.is_safe_path g env (path h) h) = Return true →
       served (fs env (path h) (headers h)) = true → code = 200).
Proof.
  rewrite handle_one_request_run. unfold dispatch.
  destruct (decide (command h = py "GET")) as [Hget | Hnot].
  - pose proof (do_GET_run g env h) as Hrun.
    destruct (SecureHTTPRequestHandler.is_safe_path g env (path h) h)
      as [[[|] | e] h1] eqn:Hsafe; [| | done].
    + destruct Hrun as [-> ->].
      destruct (simple_do_GET_responds env h)
        as (code & h' & Hdo & (logs & Hresp & _) & _ & Hserved).
      exists code, logs, h'. split; [done |]. split; [done |]. auto.
    + rewrite Hrun.
      rewrite is_safe_path_run in Hsafe. cbv zeta in Hsafe.
      repeat case_match; simplify_eq.
      all: match goal with
           | |- context [set_stdout (stdout ?x ++ [?l]) ?x] =>
               destruct (send_error_responds env 403 (py "Forbidden")
                           (set_stdout (stdout x ++ [l]) x) eq_refl)
                 as (h' & Herr & Hresp);
               apply responded_after_print in Hresp;
               eexists 403, _, h'; split; [exact Herr |]; split; [exact Hresp |];
               intros _ [=]
           end.
  - assert (Herror : ∀ message,
      ∃ code logs h',
        SecureHTTPRequestHandler.send_error env 405 (Some message) None h
          = (Return tt, h')
        ∧ responded env code logs h h'
        ∧ (command h = py "GET" →
           fst (SecureHTTPRequestHandler.is_safe_path g env (path h) h)
             = Return true →
           served (fs env (path h) (headers h)) = true → code = 200)).
    { intros message.
      destruct (send_error_responds env 405 message h eq_refl)
        as (h' & Herr & Hresp).
      by eexists 405, _, h'. }
    repeat case_decide.
    + apply Herror.
    + apply Herror.
    + apply Herror.
    + destruct (simple_do_HEAD_responds env h)
        as (code & h' & Hdo & (logs & Hresp & _) & _ & _).
      by exists code, logs, h'.
    + destruct (send_error_responds env 501
                  (py "Unsupported method (" ++ repr env (command h) ++ py ")")
                  h eq_refl) as (h' & Herr & Hresp).
      by eexists 501, _, h'.
Qed.

(** C1, as the code has it. Every response carries all eight headers of the
    table of section 4.3 with exactly the listed values, and no other value
    under their keywords: the response to a
    request whose path the Validator allows and whose file the responder
    serves (status 200), and the 403 and 405 responses as well, because
    [send_error] ends its header block through the overridden
    [end_headers]. *)
Theorem every_response_carries_the_policy (g : globals) (env : Env)
    (h : handler) :
  fresh h →
  ∃ (code : N) (h' : handler),
    SecureHTTPRequestHandler.handle_one_request g env h = (Return tt, h')
    ∧ status (wfile h') = Some code
    ∧ carries_policy (wfile h')
    ∧ only_policy (wfile h')
    ∧ (command h = py "GET" →
       fst (SecureHTTPRequestHandler.is_safe_path g env (path h) h) = Return true →
       served (fs env (path h) (headers h)) = true → code = 200).
Proof.
  intros Hfresh.
  destruct (handle_one_request_responds g env h)
    as (code & logs & h' & Hrun & Hresp & Hserved).
  exists code, h'. split; [done |].
  split; [by eapply responded_status |].
  split; [by eapply responded_policy |].
  split; [by eapply responded_only_policy | done].
Qed.

(** C2, as the code has it. A POST, PUT or DELETE request is answered with
    405 whatever its path, and the Validator is not consulted: nothing but
    the two log lines of [send_error] is printed, and the outcome is the same
    under any allowed-extension set and any decoder. (HEAD goes to the
    inherited responder; a method without a [do_] attribute gets 501.) *)
Theorem mutating_methods_get_405 (g : globals) (env : Env) (h : handler) :
  fresh h →
  command h ∈ [py "POST"; py "PUT"; py "DELETE"] →
  ∃ h' : handler,
    SecureHTTPRequestHandler.handle_one_request g env h = (Return tt, h')
    ∧ status (wfile h') = Some 405
    ∧ stdout h'
      = stdout h ++ [Logged (fst (client_address h)) (py "405");
                     Logged (fst (client_address h)) (requestline h)]
    ∧ ∀ (g' : globals) (u : str → exn + str),
        SecureHTTPRequestHandler.handle_one_request g' (with_unquote u env) h
        = SecureHTTPRequestHandler.handle_one_request g env h.
Proof.
  intros Hfresh Hcmd.
  destruct (send_error_responds env 405 (py "Method Not Allowed") h eq_refl)
    as (h' & Herr & Hresp).
  assert (Hrun : ∀ g' env',
    SecureHTTPRequestHandler.handle_one_request g' env' h
    = SecureHTTPRequestHandler.send_error env' 405
        (Some (py "Method Not Allowed")) None h).
  { intros g' env'. rewrite handle_one_request_run. unfold dispatch.
    rewrite !elem_of_cons, elem_of_nil in Hcmd.
    destruct Hcmd as [Hc | [Hc | [Hc | []]]]; rewrite Hc;
      repeat (case_decide; [done || (exfalso; by vm_compute in *) |]);
      try done. }
  exists h'. split; [by rewrite Hrun |].
  split; [by eapply responded_status |].
  split; [by eapply responded_stdout |].
  intros g' u. rewrite !Hrun. reflexivity.
Qed.

(** C9. A HEAD request is dispatched to the inherited [do_HEAD]: it is
    answered by the file responder with 200, 301, 304 or 404, never with 405
    (or 403), and [is_safe_path] is not called: no diagnostic is printed and
    the outcome is the same under any allowed-extension set and any
    decoder. *)
Theorem head_bypasses_the_validator (g : globals) (env : Env) (h : handler) :
  fresh h →
  command h = py "HEAD" →
  ∃ (code : N) (logs : list printed) (h' : handler),
    SecureHTTPRequestHandler.handle_one_request g env h = (Return tt, h')
    ∧ SecureHTTPRequestHandler.handle_one_request g env h
      = SimpleHTTPRequestHandler.do_HEAD env SecureHTTPRequestHandler.log_message
          (SecureHTTPRequestHandler.end_headers env) h
    ∧ status (wfile h') = Some code
    ∧ code ∈ [200; 301; 304; 404]
    ∧ stdout h' = stdout h ++ logs
    ∧ forallb is_logged logs = true
    ∧ ∀ (g' : globals) (u : str → exn + str),
        SecureHTTPRequestHandler.handle_one_request g' (with_unquote u env) h
        = SecureHTTPRequestHandler.handle_one_request g env h.
Proof.
  intros Hfresh Hcmd.
  assert (Hrun : ∀ g' env',
    SecureHTTPRequestHandler.handle_one_request g' env' h
    = SimpleHTTPRequestHandler.do_HEAD env' SecureHTTPRequestHandler.log_message
        (SecureHTTPRequestHandler.end_headers env') h).
  { intros g' env'. rewrite handle_one_request_run. unfold dispatch.
    rewrite Hcmd.
    repeat (case_decide; [done || (exfalso; by vm_compute in *) |]).
    done. }
  destruct (simple_do_HEAD_responds env h)
    as (code & h' & Hdo & (logs & Hresp & Hlogs) & Hcode & _).
  exists code, logs, h'.
  split; [by rewrite Hrun |]. split; [by rewrite Hrun |].
  split; [by eapply responded_status |]. split; [done |].
  split; [by eapply responded_stdout |]. split; [done |].
  intros g' u. rewrite !Hrun. reflexivity.
Qed.

(** * The results at concrete requests *)

(** A substring that does not occur, decided by running [contains]. *)
Lemma not_occurs (sub s : str) : contains sub s = false → ¬ occurs_in sub s.
Proof. intros E H%contains_occurs. congruence. Qed.

Lemma not_begins (prefix s : str) :
  startswith s prefix = false → ¬ begins_with prefix s.
Proof. intros E H%startswith_begins. congruence. Qed.

(** C3 at [GET /../etc/passwd]. *)
Lemma traversal_is_denied_witness :
  occurs_in (py "..") (decoded host (py "/../etc/passwd"))
  ∧ SecureHTTPRequestHandler.is_safe_path module_globals host
      (py "/../etc/passwd") (request "GET" "/../etc/passwd")
    = (Return false,
       set_stdout [Blocked Traversal (py "/../etc/passwd")]
         (request "GET" "/../etc/passwd")).
Proof.
  assert (H : occurs_in (py "..") (decoded host (py "/../etc/passwd")))
    by (exists (py "/"), (py "/etc/passwd"); reflexivity).
  split; [exact H |].
  exact (traversal_is_denied module_globals host (py "/../etc/passwd")
           (request "GET" "/../etc/passwd") (or_introl H)).
Defined.

(** C4 at [GET /.env.json]: a hidden file with an allowed extension. *)
Lemma hidden_file_is_denied_witness :
  (¬ occurs_in (py "..") (decoded host (py "/.env.json"))
   ∧ ¬ occurs_in (py "//") (decoded host (py "/.env.json"))
   ∧ occurs_in (py "/.") (decoded host (py "/.env.json")))
  ∧ SecureHTTPRequestHandler.is_safe_path module_globals host
      (py "/.env.json") (request "GET" "/.env.json")
    = (Return false,
       set_stdout [Blocked HiddenFile (py "/.env.json")]
         (request "GET" "/.env.json")).
Proof.
  assert (H1 : ¬ occurs_in (py "..") (decoded host (py "/.env.json")))
    by (apply not_occurs; vm_compute; reflexivity).
  assert (H2 : ¬ occurs_in (py "//") (decoded host (py "/.env.json")))
    by (apply not_occurs; vm_compute; reflexivity).
  assert (H3 : occurs_in (py "/.") (decoded host (py "/.env.json")))
    by (exists [], (py "env.json"); reflexivity).
  split; [by repeat split |].
  exact (hidden_file_is_denied module_globals host (py "/.env.json")
           (request "GET" "/.env.json") H1 H2 (or_introl H3)).
Defined.

(** C5 at [GET /assets/logo.PNG]: the extension is lower-cased, then found
    in the list. *)
Lemma extension_whitelist_witness :
  (¬ occurs_in (py "..") (decoded host (py "/assets/logo.PNG"))
   ∧ ¬ occurs_in (py "//") (decoded host (py "/assets/logo.PNG"))
   ∧ ¬ occurs_in (py "/.") (decoded host (py "/assets/logo.PNG"))
   ∧ ¬ begins_with (py ".") (decoded host (py "/assets/logo.PNG")))
  ∧ lower host (from_last_dot (decoded host (py "/assets/logo.PNG"))) = py ".png"
  ∧ SecureHTTPRequestHandler.is_safe_path module_globals host
      (py "/assets/logo.PNG") (request "GET" "/assets/logo.PNG")
    = (Return true, request "GET" "/assets/logo.PNG").
Proof.
  assert (H1 : ¬ occurs_in (py "..") (decoded host (py "/assets/logo.PNG")))
    by (apply not_occurs; vm_compute; reflexivity).
  assert (H2 : ¬ occurs_in (py "//") (decoded host (py "/assets/logo.PNG")))
    by (apply not_occurs; vm_compute; reflexivity).
  assert (H3 : ¬ occurs_in (py "/.") (decoded host (py "/assets/logo.PNG")))
    by (apply not_occurs; vm_compute; reflexivity).
  assert (H4 : ¬ begins_with (py ".") (decoded host (py "/assets/logo.PNG")))
    by (apply not_begins; vm_compute; reflexivity).
  split; [by repeat split |]. split; [vm_compute; reflexivity |].
  destruct (extension_whitelist host (py "/assets/logo.PNG")
              (request "GET" "/assets/logo.PNG") H1 H2 H3 H4) as [Hdot _].
  apply Hdot.
  - vm_compute. repeat constructor.
  - vm_compute. repeat constructor.
Defined.


(** C1 at [GET /index.html]: served, with the policy. *)
Lemma every_response_carries_the_policy_witness :
  fresh (request "GET" "/index.html")
  ∧ status (wfile (serve (request "GET" "/index.html"))) = Some 200
  ∧ carries_policy (wfile (serve (request "GET" "/index.html"))).
Proof.
  assert (Hfresh : fresh (request "GET" "/index.html")) by (split; reflexivity).
  split; [exact Hfresh |].
  destruct (every_response_carries_the_policy module_globals host
              (request "GET" "/index.html") Hfresh)
    as (code & h' & Hrun & Hstatus & Hpolicy & _ & Hserved).
  unfold serve, after. rewrite Hrun. cbn [snd].
  split; [| exact Hpolicy].
  rewrite Hstatus. f_equal. apply Hserved; vm_compute; reflexivity.
Defined.

(** C2 at [POST /../etc/passwd]: 405, and no word from the Validator. *)
Lemma mutating_methods_get_405_witness :
  (fresh (request "POST" "/../etc/passwd")
   ∧ command (request "POST" "/../etc/passwd")
       ∈ [py "POST"; py "PUT"; py "DELETE"])
  ∧ status (wfile (serve (request "POST" "/../etc/passwd"))) = Some 405
  ∧ stdout (serve (request "POST" "/../etc/passwd"))
    = [Logged (py "192.168.1.7") (py "405");
       Logged (py "192.168.1.7") (py "POST /../etc/passwd HTTP/1.1")].
Proof.
  assert (Hfresh : fresh (request "POST" "/../etc/passwd"))
    by (split; reflexivity).
  assert (Hcmd : command (request "POST" "/../etc/passwd")
                   ∈ [py "POST"; py "PUT"; py "DELETE"]) by constructor.
  split; [by split |].
  destruct (mutating_methods_get_405 module_globals host
              (request "POST" "/../etc/passwd") Hfresh Hcmd)
    as (h' & Hrun & Hstatus & Hout & _).
  unfold serve, after. rewrite Hrun. cbn [snd].
  split; [exact Hstatus |]. rewrite Hout. vm_compute. reflexivity.
Defined.

(** C9 at [HEAD /.git/config]: a path that GET answers with 403 is served. *)
Lemma head_bypasses_the_validator_witness :
  (fresh (request "HEAD" "/.git/config")
   ∧ command (request "HEAD" "/.git/config") = py "HEAD")
  ∧ (∃ (code : N) (logs : list printed),
       status (wfile (serve (request "HEAD" "/.git/config"))) = Some code
       ∧ code ∈ [200; 301; 304; 404]
       ∧ stdout (serve (request "HEAD" "/.git/config")) = logs
       ∧ forallb is_logged logs = true)
  ∧ status (wfile (serve (request "HEAD" "/.git/config"))) = Some 200
  ∧ status (wfile (serve (request "GET" "/.git/config"))) = Some 403.
Proof.
  assert (Hfresh : fresh (request "HEAD" "/.git/config")) by (split; reflexivity).
  split; [by split |].
  split; [| split; vm_compute; reflexivity].
  destruct (head_bypasses_the_validator module_globals host
              (request "HEAD" "/.git/config") Hfresh eq_refl)
    as (code & logs & h' & Hrun & _ & Hstatus & Hcode & Hout & Hlogs & _).
  exists code, logs. unfold serve, after. rewrite Hrun. cbn [snd].
  by repeat split.
Defined.

(** ** Where the specification and the code part *)

Lemma carries_is_not_lacks (w : list chunk) : carries_policy w → ¬ lacks_policy w.
Proof.
  unfold carries_policy, lacks_policy, header_policy.
  intros Hc Hl. inversion Hc as [|kv rows Hhas _]. inversion Hl as [|kv' rows' Hno _].
  subst. apply Hno. by eexists.
Qed.

(** C1 as stated fails: the 403 for [GET /../etc/passwd] and the 405 for
    [POST /index.html] carry every header of the table. *)
Lemma error_responses_carry_the_policy :
  (status (wfile (serve (request "GET" "/../etc/passwd"))) = Some 403
   ∧ carries_policy (wfile (serve (request "GET" "/../etc/passwd")))
   ∧ ¬ lacks_policy (wfile (serve (request "GET" "/../etc/passwd"))))
  ∧ (status (wfile (serve (request "POST" "/index.html"))) = Some 405
     ∧ carries_policy (wfile (serve (request "POST" "/index.html")))
     ∧ ¬ lacks_policy (wfile (serve (request "POST" "/index.html")))).
Proof.
  assert (H : ∀ r, carries_policy (wfile (serve r))).
  { intros r. unfold serve, after.
    destruct (handle_one_request_responds module_globals host r)
      as (code & logs & h' & -> & Hresp & _).
    by eapply responded_policy. }
  repeat split; try (vm_compute; reflexivity); try apply H;
    apply carries_is_not_lacks, H.
Qed.

(** C2 as stated fails: [HEAD /index.html] is answered with 200 and
    [PATCH /index.html] with 501. *)
Lemma other_methods_do_not_get_405 :
  (command (request "HEAD" "/index.html") ≠ py "GET"
   ∧ status (wfile (serve (request "HEAD" "/index.html"))) = Some 200)
  ∧ (command (request "PATCH" "/index.html") ≠ py "GET"
     ∧ status (wfile (serve (request "PATCH" "/index.html"))) = Some 501).
Proof.
  repeat split; try (vm_compute; reflexivity); by vm_compute.
Qed.


(** * Further properties *)

(** A decidable proposition about concrete data, settled by evaluation. *)
Ltac decide_by_running :=
  match goal with
  | |- ?P => apply (bool_decide_unpack P); vm_compute; exact I
  end.

(** ** The query string *)

Lemma split_first_app (c : N) (x y : str) :
  c ∉ x → nth 0 (split c (x ++ y)) [] = x ++ nth 0 (split c y) [].
Proof.
  induction x as [|d x IH]; intros Hc; [done |].
  apply not_elem_of_cons in Hc as [Hd Hx].
  cbn [app split]. destruct (N.eqb_spec d c) as [-> | _]; [done |].
  rewrite <- (IH Hx). by destruct (split c (x ++ y)).
Qed.

Lemma stripped_query (p q : str) : 63 ∉ p → stripped (p ++ 63 :: q) = p.
Proof.
  intros Hp. unfold stripped. rewrite split_first_app by done.
  cbn [split]. rewrite N.eqb_refl. cbn [nth]. by rewrite app_nil_r.
Qed.

Lemma stripped_plain (p : str) : 63 ∉ p → stripped p = p.
Proof.
  intros Hp. unfold stripped.
  rewrite <- (app_nil_r p) at 1. rewrite split_first_app by done.
  cbn [split nth]. by rewrite app_nil_r.
Qed.

(** X1. What follows the first [?] of the request target plays no part in
    validation: the verdict and the diagnostic for [p?q] are those for [p],
    whatever [q] holds. *)
Theorem query_string_is_ignored (g : globals) (env : Env) (p q : str)
    (h : handler) :
  63 ∉ p →
  SecureHTTPRequestHandler.is_safe_path g env (p ++ 63 :: q) h
  = SecureHTTPRequestHandler.is_safe_path g env p h.
Proof.
  intros Hp. rewrite !is_safe_path_run. unfold decoded.
  by rewrite stripped_query, stripped_plain.
Qed.

Lemma query_string_is_ignored_witness :
  (63 ∉ py "/index.html")
  ∧ SecureHTTPRequestHandler.is_safe_path module_globals host
      (py "/index.html?next=/../.env") (request "GET" "/index.html")
    = (Return true, request "GET" "/index.html").
Proof.
  assert (H : 63 ∉ (py "/index.html"))
    by decide_by_running.
  split; [exact H |].
  change (py "/index.html?next=/../.env")
    with (py "/index.html" ++ 63 :: py "next=/../.env").
  rewrite (query_string_is_ignored module_globals host (py "/index.html")
             (py "next=/../.env") (request "GET" "/index.html") H).
  vm_compute. reflexivity.
Defined.

(** ** The segments of an allowed path *)

(** The pieces of [s.split(c)]: the first begins [s], each other one follows
    a [c] in [s]. *)
Lemma split_segments (c : N) (s : str) :
  ∃ w ws,
    split c s = w :: ws
    ∧ begins_with w s
    ∧ ∀ seg, seg ∈ ws → occurs_in (c :: seg) s.
Proof.
  induction s as [|d s (w & ws & Hsplit & Hw & Hws)].
  - exists [], []. split; [done |]. split; [by exists [] |].
    intros seg Hseg. by apply elem_of_nil in Hseg.
  - cbn [split]. rewrite Hsplit. destruct (N.eqb_spec d c) as [-> | Hd].
    + exists [], (w :: ws). split; [done |]. split; [by exists (c :: s) |].
      intros seg [-> | Hseg]%elem_of_cons.
      * destruct Hw as [rest ->]. by exists [], rest.
      * destruct (Hws seg Hseg) as (pre & post & ->).
        by exists (c :: pre), post.
    + exists (d :: w), ws. split; [done |]. split.
      * destruct Hw as [rest ->]. by exists rest.
      * intros seg Hseg. destruct (Hws seg Hseg) as (pre & post & ->).
        by exists (d :: pre), post.
Qed.

(** X2. An allowed path has no segment that begins with a dot: cut at the
    separators, the decoded path shows no [.], no [..] and no hidden name,
    at any depth. *)
Theorem allowed_path_has_no_dot_segment (g : globals) (env : Env) (raw : str)
    (h : handler) :
  fst (SecureHTTPRequestHandler.is_safe_path g env raw h) = Return true →
  ∀ seg : str,
    seg ∈ split Posixpath.sep (decoded env raw) →
    ¬ begins_with (py ".") seg ∧ seg ≠ py "." ∧ seg ≠ py "..".
Proof.
  intros Hallowed seg Hseg.
  assert (Hdot : ¬ begins_with (py ".") seg).
  { intros [rest ->].
    rewrite is_safe_path_run in Hallowed. cbv zeta in Hallowed.
    destruct (contains (py "..") (decoded env raw)
              || contains (py "//") (decoded env raw)); [done |].
    destruct (contains (py "/.") (decoded env raw)
              || startswith (decoded env raw) (py ".")) eqn:Hhidden;
      [done |].
    apply orb_false_iff in Hhidden as [Hocc Hbeg].
    destruct (split_segments Posixpath.sep (decoded env raw))
      as (w & ws & Hsplit & Hw & Hws).
    rewrite Hsplit in Hseg. apply elem_of_cons in Hseg as [<- | Hseg].
    - destruct Hw as [tail Hw].
      assert (startswith (decoded env raw) (py ".") = true); [| congruence].
      apply startswith_begins. exists (rest ++ tail).
      rewrite Hw. by rewrite <- app_assoc.
    - destruct (Hws _ Hseg) as (pre & post & Hpath).
      assert (contains (py "/.") (decoded env raw) = true); [| congruence].
      apply contains_occurs. exists pre, (rest ++ post).
      rewrite Hpath. cbn [app]. by rewrite <- app_assoc. }
  split; [done |]. split; intros ->; apply Hdot.
  - by exists [].
  - by exists (py ".").
Qed.

Lemma allowed_path_has_no_dot_segment_witness :
  fst (SecureHTTPRequestHandler.is_safe_path module_globals host
         (py "/assets/logo.PNG") (request "GET" "/assets/logo.PNG"))
    = Return true
  ∧ (py "assets") ∈ split Posixpath.sep (decoded host (py "/assets/logo.PNG"))
  ∧ py "assets" ≠ py "..".
Proof.
  assert (H : fst (SecureHTTPRequestHandler.is_safe_path module_globals host
                     (py "/assets/logo.PNG") (request "GET" "/assets/logo.PNG"))
              = Return true) by (vm_compute; reflexivity).
  assert (Hseg : (py "assets")
                   ∈ split Posixpath.sep (decoded host (py "/assets/logo.PNG")))
    by decide_by_running.
  split; [exact H |]. split; [exact Hseg |].
  exact (proj2 (proj2 (allowed_path_has_no_dot_segment module_globals host
                         (py "/assets/logo.PNG")
                         (request "GET" "/assets/logo.PNG") H _ Hseg))).
Defined.

(** ** Percent-decoding *)

Lemma split_cons_other (c d : N) (s : str) :
  d ≠ c →
  ∃ w ws, split c s = w :: ws ∧ split c (d :: s) = (d :: w) :: ws.
Proof.
  intros Hd. destruct (split_segments c s) as (w & ws & Hsplit & _).
  exists w, ws. split; [done |]. cbn [split]. rewrite Hsplit.
  by destruct (N.eqb_spec d c).
Qed.

(** [unquote_to_bytes] decodes from left to right. *)
Lemma unquote_to_bytes_pct_decode (s : str) :
  Urllib.unquote_to_bytes s = pct_decode s.
Proof.
  remember (length s) as n eqn:Hn. revert s Hn.
  induction n as [n IH] using lt_wf_ind. intros s ->.
  destruct s as [|c s]; [done |].
  destruct (decide (c = 37)) as [-> | Hc].
  - unfold Urllib.unquote_to_bytes. cbn [split pct_decode N.eqb Pos.eqb].
    destruct (split_segments 37 s) as (w & ws & Hsplit & [rest Hw] & _).
    assert (IHs : Urllib.unquote_to_bytes s = pct_decode s)
      by (apply (IH (length s)); [simpl; lia | reflexivity]).
    unfold Urllib.unquote_to_bytes in IHs. rewrite Hsplit in IHs.
    rewrite Hsplit. cbn [app List.map List.concat].
    destruct s as [|a [|b t]].
    + destruct w; [| done]. rewrite <- IHs. done.
    + destruct w as [|a' [|]]; try done.
      all: rewrite <- IHs; done.
    + destruct (Urllib.hexval a) as [x |] eqn:Ha;
        [destruct (Urllib.hexval b) as [y |] eqn:Hb |].
      * assert (a ≠ 37) by (intros ->; done).
        assert (b ≠ 37) by (intros ->; done).
        destruct (split_cons_other 37 b t) as (w1 & ws1 & Ht & Hbt); [done |].
        destruct (split_cons_other 37 a (b :: t)) as (w2 & ws2 & Hbt' & Habt);
          [done |].
        rewrite Hbt in Hbt'. injection Hbt' as <- <-.
        rewrite Habt in Hsplit. injection Hsplit as <- <-.
        cbn [Urllib.unquote_item]. rewrite Ha, Hb.
        assert (IHt : Urllib.unquote_to_bytes t = pct_decode t)
          by (apply (IH (length t)); [simpl; lia | reflexivity]).
        unfold Urllib.unquote_to_bytes in IHt. rewrite Ht in IHt.
        rewrite <- IHt. done.
      * rewrite <- IHs.
        destruct w as [|a' [|b' w']]; try done.
        injection Hw as <- <- _. cbn [Urllib.unquote_item]. by rewrite Ha, Hb.
      * rewrite <- IHs.
        destruct w as [|a' [|b' w']]; try done.
        injection Hw as <- <- _. cbn [Urllib.unquote_item]. by rewrite Ha.
  - destruct (split_cons_other 37 c s) as (w & ws & Hs & Hcs); [done |].
    assert (IHs : Urllib.unquote_to_bytes s = pct_decode s)
      by (apply (IH (length s)); [simpl; lia | reflexivity]).
    unfold Urllib.unquote_to_bytes in *. rewrite Hcs. rewrite Hs in IHs.
    cbn [pct_decode]. destruct (N.eqb_spec c 37); [done |].
    rewrite <- IHs. done.
Qed.

(** Decoding a concatenation, when the second part cannot complete an
    escape begun in the first. *)
Lemma pct_decode_app (a rest : str) :
  plain_start rest = true →
  pct_decode (a ++ rest) = pct_decode a ++ pct_decode rest.
Proof.
  intros Hrest.
  remember (length a) as n eqn:Hn. revert a Hn.
  induction n as [n IH] using lt_wf_ind. intros a ->.
  destruct a as [|c a]; [done |].
  assert (IHa : pct_decode (a ++ rest) = pct_decode a ++ pct_decode rest)
    by (apply (IH (length a)); [simpl; lia | reflexivity]).
  cbn [app pct_decode]. destruct (N.eqb c 37); [| by rewrite IHa].
  destruct a as [|x [|y t]].
  - cbn [app pct_decode].
    destruct rest as [|r0 [|r1 rest']]; try done;
      cbn [plain_start] in Hrest; by destruct (Urllib.hexval r0).
  - cbn [app] in *. rewrite IHa.
    destruct rest as [|r0 rest']; [done |].
    cbn [plain_start] in Hrest.
    destruct (Urllib.hexval x); [| done].
    by destruct (Urllib.hexval r0).
  - cbn [app] in *. rewrite IHa.
    destruct (Urllib.hexval x); [| done].
    destruct (Urllib.hexval y); [| done].
    cbn [app]. f_equal.
    apply (IH (length t)); [simpl; lia | reflexivity].
Qed.

Lemma dot_spellings_spell (d : str) : d ∈ dot_spellings → spells 46 d.
Proof.
  unfold dot_spellings. rewrite !elem_of_cons, elem_of_nil.
  intros [-> | [-> | [-> | []]]];
    (split; [done |]; split; [done |]; split; [done |]; split; [done |];
     split; [decide_by_running |]; split; [| done]).
  - done.
  - intros H. destruct H. decide_by_running.
  - intros H. destruct H. decide_by_running.
Qed.

Lemma slash_spellings_spell (d : str) : d ∈ slash_spellings → spells 47 d.
Proof.
  unfold slash_spellings. rewrite !elem_of_cons, elem_of_nil.
  intros [-> | [-> | [-> | []]]];
    (split; [done |]; split; [done |]; split; [done |]; split; [done |];
     split; [decide_by_running |]; split; [| done]).
  - done.
  - intros H. destruct H. decide_by_running.
  - intros H. destruct H. decide_by_running.
Qed.

(** ** UTF-8 decoding keeps every ASCII byte *)

(** One step of the decoder: it emits something and goes on after at most
    three more bytes, all of them continuation bytes. *)
Lemma utf8_decode_step (c : N) (r : list N) :
  ∃ (k : nat) (out : str),
    Urllib.utf8_decode (c :: r) = out ++ Urllib.utf8_decode (drop k r)
    ∧ (k ≤ length r)%nat
    ∧ Forall (λ z, 128 ≤ z) (take k r).
Proof.
  assert (Hcont : ∀ z, Urllib.is_cont z = true → 128 ≤ z).
  { unfold Urllib.is_cont. intros z [H _]%andb_true_iff. by apply N.leb_le. }
  cbn [Urllib.utf8_decode].
  repeat case_match; subst;
    repeat match goal with
           | H : _ && _ = true |- _ => apply andb_true_iff in H as [? ?]
           end.
  all: try (exists 0%nat; eexists [_]; split; [reflexivity |];
            split; [simpl; lia | constructor]).
  all: try (exists 1%nat; eexists [_]; split; [reflexivity |];
            split; [simpl; lia | repeat constructor; by apply Hcont]).
  all: try (exists 2%nat; eexists [_]; split; [reflexivity |];
            split; [simpl; lia | repeat constructor; by apply Hcont]).
  all: try (exists 3%nat; eexists [_]; split; [reflexivity |];
            split; [simpl; lia | repeat constructor; by apply Hcont]).
Qed.

Lemma utf8_decode_sync (x y : list N) (b : N) :
  b < 128 →
  ∃ x', Urllib.utf8_decode (x ++ b :: y) = x' ++ b :: Urllib.utf8_decode y.
Proof.
  intros Hb.
  remember (length x) as n eqn:Hn. revert x Hn.
  induction n as [n IH] using lt_wf_ind. intros x ->.
  destruct x as [|c x].
  - exists []. cbn [app Urllib.utf8_decode].
    by rewrite (proj2 (N.ltb_lt b 128) Hb).
  - destruct (utf8_decode_step c (x ++ b :: y)) as (k & out & Hstep & Hk & Hall).
    assert (Hkx : (k ≤ length x)%nat).
    { destruct (decide (k ≤ length x)%nat) as [|Hgt]; [done |].
      exfalso. rewrite Forall_forall in Hall.
      assert (Hin : b ∈ take k (x ++ b :: y)).
      { rewrite take_app. apply elem_of_app. right.
        destruct (k - length x)%nat as [|m] eqn:Hm; [lia |]. left. }
      apply Hall in Hin. lia. }
    rewrite drop_app_le in Hstep by done.
    destruct (IH (length (drop k x))) with (x := drop k x)
      as [x' Hx']; [rewrite length_drop; simpl; lia | done |].
    exists (out ++ x'). cbn [app]. rewrite Hstep, Hx'. by rewrite <- app_assoc.
Qed.

(** ** The ASCII runs of [unquote] *)

Lemma runs_head_ascii (s : str) (r : str) (rs : list (bool * str)) :
  Urllib.runs s = (true, r) :: rs → forallb is_ascii r = true.
Proof.
  revert r rs. induction s as [|c s IH]; intros r rs; [done |].
  cbn [Urllib.runs].
  destruct (Urllib.runs s) as [|[a r0] rs0].
  - intros [= Hc <- <-]. cbn [forallb]. by rewrite Hc.
  - destruct a, (is_ascii c) eqn:Hc; cbn [Bool.eqb].
    + intros [= <- <-]. cbn [forallb]. rewrite Hc. by eapply IH.
    + done.
    + intros [= <- <-]. cbn [forallb]. by rewrite Hc.
    + done.
Qed.

(** An ASCII stretch of the string lies inside one ASCII run. *)
Lemma runs_after (m post : str) :
  m ≠ [] → forallb is_ascii m = true →
  ∃ b rs, Urllib.runs (m ++ post) = (true, m ++ b) :: rs
          ∧ forallb is_ascii b = true.
Proof.
  induction m as [|c m IH]; [done |]. intros _ [Hc Hm]%andb_true_iff.
  cbn [app Urllib.runs]. destruct m as [|c' m].
  - cbn [app]. destruct (Urllib.runs post) as [|[a r0] rs0] eqn:Hpost.
    + exists [], []. by rewrite Hc.
    + rewrite Hc. destruct a; cbn [Bool.eqb].
      * exists r0, rs0. split; [done |]. by eapply runs_head_ascii.
      * by exists [], ((false, r0) :: rs0).
  - destruct IH as (b & rs & Hruns & Hb); [done | done |].
    rewrite Hruns, Hc. cbn [Bool.eqb]. by exists b, rs.
Qed.

Lemma runs_around (pre m post : str) :
  m ≠ [] → forallb is_ascii m = true →
  ∃ a b before rs,
    Urllib.runs (pre ++ m ++ post) = before ++ (true, a ++ m ++ b) :: rs
    ∧ forallb is_ascii a = true.
Proof.
  intros Hm Hascii.
  induction pre as [|c pre (a & b & before & rs & Hpre & Ha)].
  - destruct (runs_after m post Hm Hascii) as (b & rs & Hruns & _).
    by exists [], b, [], rs.
  - cbn [app Urllib.runs]. revert Hpre. destruct before as [|[a0 r0] before].
    + cbn [app]. intros ->. destruct (is_ascii c) eqn:Hc; cbn [Bool.eqb].
      * exists (c :: a), b, [], rs. split; [done |]. cbn [forallb]. by rewrite Hc.
      * by exists a, b, [(false, [c])], rs.
    + cbn [app]. intros ->.
      destruct (Bool.eqb a0 (is_ascii c)).
      * by exists a, b, ((a0, c :: r0) :: before), rs.
      * by exists a, b, ((is_ascii c, [c]) :: (a0, r0) :: before), rs.
Qed.

Lemma utf8_decode_ascii (b : N) (y : list N) :
  b < 128 → Urllib.utf8_decode (b :: y) = b :: Urllib.utf8_decode y.
Proof.
  intros Hb. cbn [Urllib.utf8_decode]. by rewrite (proj2 (N.ltb_lt b 128) Hb).
Qed.

(** Two characters, spelled plainly or with escapes, side by side in the
    string are side by side in what CPython's [unquote] returns. *)
Lemma unquote_keeps_pair (c1 c2 : N) (d1 d2 pre post : str) :
  spells c1 d1 → spells c2 d2 →
  ∃ p, Urllib.unquote (pre ++ d1 ++ d2 ++ post) = inr p ∧ occurs_in [c1; c2] p.
Proof.
  intros (Hc1 & Hplain1 & Hascii1 & Hne1 & _ & Hlit1 & Hdec1)
         (Hc2 & Hplain2 & Hascii2 & Hne2 & _ & Hlit2 & Hdec2).
  unfold Urllib.unquote.
  destruct (contains (py "%") (pre ++ d1 ++ d2 ++ post)) eqn:Hpct; cbn [negb].
  - eexists. split; [reflexivity |].
    destruct (runs_around pre (d1 ++ d2) post) as (a & b & before & rs & Hruns & Ha).
    { destruct d1; [congruence | discriminate]. }
    { rewrite forallb_app, Hascii1, Hascii2. reflexivity. }
    rewrite <- app_assoc in Hruns. rewrite Hruns.
    rewrite map_app, concat_app. cbn [List.map List.concat fst snd].
    rewrite unquote_to_bytes_pct_decode.
    rewrite pct_decode_app.
    2:{ rewrite <- app_assoc. destruct d1; [congruence | exact Hplain1]. }
    rewrite <- !app_assoc, Hdec1, Hdec2.
    destruct (utf8_decode_sync (pct_decode a) (c2 :: pct_decode b) c1 Hc1)
      as [x' Hsync].
    rewrite Hsync. rewrite (utf8_decode_ascii c2) by exact Hc2.
    match goal with
    | |- occurs_in _ (?front ++ (_ ++ _ :: _ :: ?mid) ++ ?back) =>
        exists (front ++ x'), (mid ++ back)
    end.
    rewrite <- !app_assoc. reflexivity.
  - eexists. split; [reflexivity |].
    assert (Hno : 37 ∉ pre ++ d1 ++ d2 ++ post).
    { intros Hin. apply (contains_char 37) in Hin.
      change [37] with (py "%") in Hin. congruence. }
    rewrite !not_elem_of_app in Hno. destruct Hno as (_ & Hd1 & Hd2 & _).
    rewrite (Hlit1 Hd1), (Hlit2 Hd2). exists pre, post. reflexivity.
Qed.

Lemma unquote_keeps_head (c : N) (d post : str) :
  spells c d →
  ∃ p, Urllib.unquote (d ++ post) = inr p ∧ begins_with [c] p.
Proof.
  intros (Hc & Hplain & Hascii & Hne & _ & Hlit & Hdec).
  unfold Urllib.unquote.
  destruct (contains (py "%") (d ++ post)) eqn:Hpct; cbn [negb].
  - eexists. split; [reflexivity |].
    destruct (runs_after d post Hne Hascii) as (b & rs & Hruns & _).
    rewrite Hruns. cbn [List.map List.concat fst snd].
    rewrite unquote_to_bytes_pct_decode, Hdec.
    rewrite (utf8_decode_ascii c) by exact Hc.
    eexists. reflexivity.
  - eexists. split; [reflexivity |].
    assert (Hno : 37 ∉ d ++ post).
    { intros Hin. apply (contains_char 37) in Hin.
      change [37] with (py "%") in Hin. congruence. }
    rewrite not_elem_of_app in Hno. destruct Hno as [Hd _].
    rewrite (Hlit Hd). exists post. reflexivity.
Qed.

(** ** Escapes do not hide a traversal *)

(** The two ways [is_safe_path] denies before it looks at the extension. *)
Lemma traversal_run (g : globals) (env : Env) (raw : str) (h : handler) :
  occurs_in (py "..") (decoded env raw) ∨ occurs_in (py "//") (decoded env raw) →
  SecureHTTPRequestHandler.is_safe_path g env raw h
  = (Return false,
     set_stdout (stdout h ++ [Blocked Traversal (decoded env raw)]) h).
Proof.
  intros Hocc. rewrite is_safe_path_run. cbv zeta.
  replace (contains (py "..") (decoded env raw)
           || contains (py "//") (decoded env raw)) with true; [done |].
  symmetry. apply orb_true_iff.
  destruct Hocc as [H | H]; [left | right]; by apply contains_occurs.
Qed.

Lemma hidden_run (g : globals) (env : Env) (raw : str) (h : handler) :
  occurs_in (py "/.") (decoded env raw) ∨ begins_with (py ".") (decoded env raw) →
  fst (SecureHTTPRequestHandler.is_safe_path g env raw h) = Return false.
Proof.
  intros Hocc. rewrite is_safe_path_run. cbv zeta.
  destruct (contains (py "..") (decoded env raw)
            || contains (py "//") (decoded env raw)); [done |].
  replace (contains (py "/.") (decoded env raw)
           || startswith (decoded env raw) (py ".")) with true; [done |].
  symmetry. apply orb_true_iff.
  destruct Hocc as [H | H]; [left | right].
  - by apply contains_occurs.
  - by apply startswith_begins.
Qed.

(** The decoded path of a target in which two spelled characters meet
    before any [?]. *)
Lemma decoded_keeps_pair (env : Env) (c1 c2 : N) (d1 d2 pre post : str) :
  unquote env = Urllib.unquote →
  63 ∉ pre → spells c1 d1 → spells c2 d2 →
  occurs_in [c1; c2] (decoded env (pre ++ d1 ++ d2 ++ post)).
Proof.
  intros Henv Hpre Hd1 Hd2.
  assert (Hfront : 63 ∉ pre ++ d1 ++ d2).
  { rewrite !not_elem_of_app. split; [done |].
    split; [apply Hd1 | apply Hd2]. }
  unfold decoded, stripped.
  replace (pre ++ d1 ++ d2 ++ post) with ((pre ++ d1 ++ d2) ++ post)
    by (by rewrite <- !app_assoc).
  rewrite split_first_app by done. rewrite <- !app_assoc.
  destruct (unquote_keeps_pair c1 c2 d1 d2 pre (nth 0 (split 63 post) []) Hd1 Hd2)
    as (p & Hp & Hocc).
  by rewrite Henv, Hp.
Qed.

(** X3. With CPython's decoder, two dots or two separators that meet before
    the query string are a traversal however each one is written: plainly,
    or as [%2e], [%2E], [%2f], [%2F]. The request is denied with the
    path-traversal diagnostic. *)
Theorem encoded_traversal_is_denied (g : globals) (env : Env)
    (pre d1 d2 post : str) (h : handler) :
  unquote env = Urllib.unquote →
  63 ∉ pre →
  (d1 ∈ dot_spellings ∧ d2 ∈ dot_spellings)
  ∨ (d1 ∈ slash_spellings ∧ d2 ∈ slash_spellings) →
  SecureHTTPRequestHandler.is_safe_path g env (pre ++ d1 ++ d2 ++ post) h
  = (Return false,
     set_stdout
       (stdout h ++ [Blocked Traversal (decoded env (pre ++ d1 ++ d2 ++ post))])
       h).
Proof.
  intros Henv Hpre [[H1 H2] | [H1 H2]]; apply traversal_run.
  - left. apply (decoded_keeps_pair env 46 46); try done;
      by apply dot_spellings_spell.
  - right. apply (decoded_keeps_pair env 47 47); try done;
      by apply slash_spellings_spell.
Qed.

Lemma encoded_traversal_is_denied_witness :
  (unquote host = Urllib.unquote
   ∧ (63 ∉ py "/static/")
   ∧ py "%2e" ∈ dot_spellings ∧ py "." ∈ dot_spellings)
  ∧ SecureHTTPRequestHandler.is_safe_path module_globals host
      (py "/static/%2e./app.js?v=1") (request "GET" "/static/%2e./app.js?v=1")
    = (Return false,
       set_stdout [Blocked Traversal (py "/static/../app.js")]
         (request "GET" "/static/%2e./app.js?v=1")).
Proof.
  assert (H0 : 63 ∉ py "/static/") by decide_by_running.
  assert (H1 : py "%2e" ∈ dot_spellings) by decide_by_running.
  assert (H2 : py "." ∈ dot_spellings) by decide_by_running.
  split; [by repeat split |].
  exact (encoded_traversal_is_denied module_globals host (py "/static/")
           (py "%2e") (py ".") (py "/app.js?v=1")
           (request "GET" "/static/%2e./app.js?v=1") eq_refl H0
           (or_introl (conj H1 H2))).
Defined.

(** X4. With CPython's decoder, a dot that follows a separator, or that
    opens the path, marks a hidden name however dot and separator are
    written; the request is denied. *)
Theorem encoded_hidden_file_is_denied (g : globals) (env : Env)
    (pre s d post : str) (h : handler) :
  unquote env = Urllib.unquote →
  d ∈ dot_spellings →
  ((63 ∉ pre) ∧ s ∈ slash_spellings) ∨ (pre = [] ∧ s = []) →
  fst (SecureHTTPRequestHandler.is_safe_path g env (pre ++ s ++ d ++ post) h)
  = Return false.
Proof.
  intros Henv Hd [[Hpre Hs] | [-> ->]]; apply hidden_run.
  - left. apply (decoded_keeps_pair env 47 46); try done.
    + by apply slash_spellings_spell.
    + by apply dot_spellings_spell.
  - right. cbn [app]. unfold decoded, stripped.
    pose proof (dot_spellings_spell d Hd) as Hspell.
    assert (Hq : 63 ∉ d) by apply Hspell.
    rewrite split_first_app by done.
    destruct (unquote_keeps_head 46 d (nth 0 (split 63 post) []) Hspell)
      as (p & Hp & Hbeg).
    by rewrite Henv, Hp.
Qed.

Lemma encoded_hidden_file_is_denied_witness :
  (unquote host = Urllib.unquote
   ∧ py "%2E" ∈ dot_spellings
   ∧ (63 ∉ py "/repo") ∧ py "%2f" ∈ slash_spellings)
  ∧ fst (SecureHTTPRequestHandler.is_safe_path module_globals host
           (py "/repo%2f%2Egit/config") (request "GET" "/repo%2f%2Egit/config"))
    = Return false.
Proof.
  assert (H0 : 63 ∉ py "/repo") by decide_by_running.
  assert (H1 : py "%2E" ∈ dot_spellings) by decide_by_running.
  assert (H2 : py "%2f" ∈ slash_spellings) by decide_by_running.
  split; [by repeat split |].
  exact (encoded_hidden_file_is_denied module_globals host (py "/repo")
           (py "%2f") (py "%2E") (py "git/config")
           (request "GET" "/repo%2f%2Egit/config") eq_refl H1
           (or_introl (conj H0 H2))).
Defined.

(** ** Only the last extension counts *)

(** Past the traversal and hidden-file checks, the verdict is the extension
    check alone. *)
Lemma extension_run (g : globals) (env : Env) (raw : str) (h : handler) :
  ¬ occurs_in (py "..") (decoded env raw) →
  ¬ occurs_in (py "//") (decoded env raw) →
  ¬ occurs_in (py "/.") (decoded env raw) →
  ¬ begins_with (py ".") (decoded env raw) →
  SecureHTTPRequestHandler.is_safe_path g env raw h
  = if contains [Posixpath.extsep] (final_segment (decoded env raw))
       && negb (bool_decide
                  (lower env (snd (Posixpath.splitext (decoded env raw)))
                   ∈ ALLOWED_EXTENSIONS g))
    then (Return false,
          set_stdout (stdout h ++ [Blocked FileType (decoded env raw)]) h)
    else (Return true, h).
Proof.
  intros Hdots Hslashes Hhidden Hbegins.
  rewrite is_safe_path_run. cbv zeta.
  replace (contains (py "..") (decoded env raw)
           || contains (py "//") (decoded env raw)) with false.
  - replace (contains (py "/.") (decoded env raw)
             || startswith (decoded env raw) (py ".")) with false.
    + by rewrite basename_final_segment.
    + symmetry. apply orb_false_iff. split; apply not_true_is_false.
      * by intros H%contains_occurs.
      * by intros H%startswith_begins.
  - symmetry. apply orb_false_iff. split; apply not_true_is_false.
    + by intros H%contains_occurs.
    + by intros H%contains_occurs.
Qed.

Lemma final_segment_app (stem e : str) :
  Posixpath.sep ∉ e → ∃ s, final_segment (stem ++ e) = s ++ e.
Proof.
  intros He. destruct (decide (Posixpath.sep ∈ stem)) as [Hin | Hout].
  - apply list_elem_of_split_r in Hin as (s1 & s2 & -> & Hs2).
    exists s2. rewrite <- app_assoc. cbn [app].
    apply final_segment_split. by apply not_elem_of_app.
  - exists stem. apply final_segment_whole. by apply not_elem_of_app.
Qed.

(** X5. Only the last extension is checked. When the decoded path ends in a
    dot followed by characters that are neither dots nor separators, and
    shows no traversal and no hidden name, the verdict is whether that
    ending, lower-cased, is listed; what stands before it, another extension
    included ([/notes.exe.PNG]), plays no part. *)
Theorem last_extension_decides (env : Env) (raw stem tail : str) (h : handler) :
  decoded env raw = stem ++ Posixpath.extsep :: tail →
  Posixpath.extsep ∉ tail → Posixpath.sep ∉ tail →
  ¬ occurs_in (py "..") (decoded env raw) → ¬ occurs_in (py "//") (decoded env raw) →
  ¬ occurs_in (py "/.") (decoded env raw) → ¬ begins_with (py ".") (decoded env raw) →
  SecureHTTPRequestHandler.is_safe_path module_globals env raw h
  = if bool_decide (lower env (Posixpath.extsep :: tail) ∈ whitelist)
    then (Return true, h)
    else (Return false,
          set_stdout (stdout h ++ [Blocked FileType (decoded env raw)]) h).
Proof.
  intros Hdec Htail Hsep Hdots Hslashes Hhidden Hbegins.
  assert (Hseg : Posixpath.extsep ∈ final_segment (decoded env raw)).
  { rewrite Hdec.
    destruct (final_segment_app stem (Posixpath.extsep :: tail)) as [s ->].
    - apply not_elem_of_cons. split; [done | exact Hsep].
    - apply elem_of_app. right. left. }
  rewrite extension_run by done.
  rewrite splitext_from_last_dot by done.
  rewrite (proj2 (contains_char _ _) Hseg). cbn [andb].
  rewrite Hdec. rewrite from_last_dot_split by done.
  destruct (decide (lower env (Posixpath.extsep :: tail) ∈ whitelist))
    as [Hin | Hout].
  - rewrite !bool_decide_eq_true_2; [done | done |].
    by apply allowed_extensions_whitelist.
  - rewrite !bool_decide_eq_false_2; [done | done |].
    by rewrite allowed_extensions_whitelist.
Qed.

Lemma last_extension_decides_witness :
  (decoded host (py "/notes.exe.PNG") = py "/notes.exe" ++ Posixpath.extsep :: py "PNG"
   ∧ (Posixpath.extsep ∉ py "PNG") ∧ (Posixpath.sep ∉ py "PNG"))
  ∧ SecureHTTPRequestHandler.is_safe_path module_globals host
      (py "/notes.exe.PNG") (request "GET" "/notes.exe.PNG")
    = (Return true, request "GET" "/notes.exe.PNG").
Proof.
  assert (H0 : decoded host (py "/notes.exe.PNG")
               = py "/notes.exe" ++ Posixpath.extsep :: py "PNG") by reflexivity.
  assert (H1 : Posixpath.extsep ∉ py "PNG") by decide_by_running.
  assert (H2 : Posixpath.sep ∉ py "PNG") by decide_by_running.
  split; [by repeat split |].
  rewrite (last_extension_decides host (py "/notes.exe.PNG") (py "/notes.exe")
             (py "PNG") (request "GET" "/notes.exe.PNG") H0 H1 H2).
  - vm_compute. reflexivity.
  - apply not_occurs. vm_compute. reflexivity.
  - apply not_occurs. vm_compute. reflexivity.
  - apply not_occurs. vm_compute. reflexivity.
  - apply not_begins. vm_compute. reflexivity.
Defined.

(** ** Refusals *)

Lemma send_error_refused_upd (env : Env) (code : N) (message : str) c b w o h :
  has_body code = true →
  SecureHTTPRequestHandler.send_error env code (Some message) None
    (upd c b w o h)
  = (Return tt,
     upd true []
       (w ++ Lines (b ++ error_head env code message ++ policy_lines ++ [BlankLine])
          :: error_payload env code message (command h))
       (o ++ [Logged (fst (client_address h)) (of_N code);
              Logged (fst (client_address h)) (requestline h)])
       h).
Proof.
  intros Hbody. unfold has_body in Hbody.
  unfold SecureHTTPRequestHandler.send_error, BaseHTTPRequestHandler.send_error.
  unfold error_payload, error_head, error_body.
  assert (Hlong :
    snd (default (py "???", py "???") (responses env code))
    = snd (match responses env code with
           | Some p => p
           | None => (py "???", py "???")
           end)) by (by destruct (responses env code)).
  rewrite Hlong. clear Hlong.
  destruct (match responses env code with
            | Some p => p
            | None => (py "???", py "???")
            end) as [shortmsg longmsg].
  cbn [from_option id snd]. rewrite Hbody.
  set (body := error_page env code message longmsg).
  erewrite bind_return by apply log_message_run.
  destruct (send_response_run env code (Some message) c b w
              (o ++ [Logged (fst (client_address h)) (of_N code)]) h)
    as [phrase Hresp].
  assert (phrase = message) as ->.
  { revert Hresp. unfold BaseHTTPRequestHandler.send_response.
    erewrite bind_return by (unfold BaseHTTPRequestHandler.log_request;
      erewrite bind_return by reflexivity; apply log_message_run).
    erewrite bind_return by reflexivity.
    send_other.
    rewrite send_header_other by (vm_compute; reflexivity).
    cbn [_headers_buffer upd set_headers_buffer
      client_address requestline command path headers close_connection wfile stdout].
    rewrite <- !app_assoc. cbn [app].
    intros [= E]. apply app_inv_head in E. congruence. }
  erewrite bind_return by apply Hresp.
  erewrite bind_return by apply send_header_run.
  replace (connection_flag env (py "Connection") (py "close") c) with true
    by (vm_compute; reflexivity).
  erewrite bind_return.
  2:{ send_other. send_other. reflexivity. }
  erewrite bind_return by apply end_headers_run.
  erewrite bind_return by reflexivity.
  cbn [command upd]. rewrite <- !app_assoc. cbn [app].
  destruct body as [|x body']; [reflexivity |].
  unfold Str.eqb. destruct (bool_decide (command h = py "HEAD"));
    cbn [negb]; [reflexivity |].
  unfold BaseHTTPRequestHandler.wfile_write, modify.
  cbn [_headers_buffer upd set_wfile
    client_address requestline command path headers close_connection wfile stdout].
  rewrite <- !app_assoc. reflexivity.
Qed.

(** [send_error] with a message, in full. *)
Lemma send_error_refused (env : Env) (code : N) (message : str) (h : handler) :
  has_body code = true →
  SecureHTTPRequestHandler.send_error env code (Some message) None h
  = (Return tt, refused env code message h).
Proof.
  intros Hbody.
  pose proof (send_error_refused_upd env code message (close_connection h)
                (_headers_buffer h) (wfile h) (stdout h) h Hbody) as H.
  by rewrite upd_self in H.
Qed.

Lemma refused_responded (env : Env) (code : N) (message : str) (h : handler) :
  responded env code
    [Logged (fst (client_address h)) (of_N code);
     Logged (fst (client_address h)) (requestline h)]
    h (refused env code message h).
Proof.
  exists true, message.
  exists [HeaderLine (py "Server") (version_string env);
          HeaderLine (py "Date") (date_time_string env);
          HeaderLine (py "Connection") (py "close");
          HeaderLine (py "Content-Type") (error_content_type env);
          HeaderLine (py "Content-Length")
            (of_N (N.of_nat (length (error_body env code message))))].
  exists (error_payload env code message (command h)).
  split; [reflexivity |]. split; [reflexivity |].
  unfold error_payload. by repeat case_match.
Qed.

Lemma refused_says_close (env : Env) (code : N) (message : str) (h : handler) :
  close_connection (refused env code message h) = true
  ∧ has_header (wfile (refused env code message h)) (py "Connection") (py "close").
Proof.
  split; [reflexivity |].
  unfold has_header, sent_lines, refused. cbn [wfile upd].
  rewrite map_app, concat_app. apply elem_of_app. right.
  cbn [List.map lines_of List.concat].
  apply elem_of_app. left. apply elem_of_app. right.
  apply elem_of_app. left. unfold error_head. repeat constructor.
Qed.

(** The handler's answer to a GET whose path is denied. *)
Lemma denied_get_run (g : globals) (env : Env) (h : handler) :
  command h = py "GET" →
  fst (SecureHTTPRequestHandler.is_safe_path g env (path h) h) = Return false →
  ∃ why,
    SecureHTTPRequestHandler.handle_one_request g env h
    = (Return tt,
       refused env 403 (py "Forbidden")
         (set_stdout (stdout h ++ [Blocked why (decoded env (path h))]) h)).
Proof.
  intros Hcmd Hdenied.
  rewrite handle_one_request_run. unfold dispatch. rewrite Hcmd.
  rewrite decide_True by done.
  pose proof (do_GET_run g env h) as Hrun.
  destruct (SecureHTTPRequestHandler.is_safe_path g env (path h) h)
    as [[[|] | e] h1] eqn:Hsafe; [done | | done].
  rewrite Hrun.
  rewrite is_safe_path_run in Hsafe. cbv zeta in Hsafe.
  repeat case_match; simplify_eq; eexists; by apply send_error_refused.
Qed.

(** X6. A GET whose path the Validator denies is answered with 403 and the
    connection is closed; three lines are printed (the diagnostic, the code,
    the request line); the file system is not looked at: the outcome is the
    same whatever it holds. *)
Theorem denied_get_never_reaches_the_file_system (g : globals) (env : Env)
    (h : handler) :
  fresh h →
  command h = py "GET" →
  fst (SecureHTTPRequestHandler.is_safe_path g env (path h) h) = Return false →
  ∃ (why : reason) (h' : handler),
    SecureHTTPRequestHandler.handle_one_request g env h = (Return tt, h')
    ∧ status (wfile h') = Some 403
    ∧ stdout h'
      = stdout h ++ [Blocked why (decoded env (path h));
                     Logged (fst (client_address h)) (py "403");
                     Logged (fst (client_address h)) (requestline h)]
    ∧ close_connection h' = true
    ∧ has_header (wfile h') (py "Connection") (py "close")
    ∧ ∀ f : str → list (str * str) → fs_outcome,
        SecureHTTPRequestHandler.handle_one_request g (with_fs f env) h
        = SecureHTTPRequestHandler.handle_one_request g env h.
Proof.
  intros Hfresh Hcmd Hdenied.
  destruct (denied_get_run g env h Hcmd Hdenied) as [why Hrun].
  eexists why, _. split; [exact Hrun |].
  split.
  { eapply responded_status; [| apply refused_responded]. exact Hfresh. }
  split.
  { cbn [stdout refused upd set_stdout]. by rewrite <- app_assoc. }
  split; [apply refused_says_close |].
  split; [apply refused_says_close |].
  intros f.
  rewrite !handle_one_request_run. unfold dispatch. rewrite Hcmd.
  rewrite !decide_True by done.
  pose proof (do_GET_run g env h) as H1.
  pose proof (do_GET_run g (with_fs f env) h) as H2.
  change (SecureHTTPRequestHandler.is_safe_path g (with_fs f env) (path h) h)
    with (SecureHTTPRequestHandler.is_safe_path g env (path h) h) in H2.
  destruct (SecureHTTPRequestHandler.is_safe_path g env (path h) h)
    as [[[|] | e] h1]; [done | | done].
  rewrite H1, H2. reflexivity.
Qed.

Lemma denied_get_never_reaches_the_file_system_witness :
  (fresh (request "GET" "/.git/config")
   ∧ command (request "GET" "/.git/config") = py "GET"
   ∧ fst (SecureHTTPRequestHandler.is_safe_path module_globals host
            (path (request "GET" "/.git/config")) (request "GET" "/.git/config"))
     = Return false)
  ∧ status (wfile (serve (request "GET" "/.git/config"))) = Some 403
  ∧ close_connection (serve (request "GET" "/.git/config")) = true.
Proof.
  assert (Hfresh : fresh (request "GET" "/.git/config")) by (split; reflexivity).
  assert (Hdenied :
    fst (SecureHTTPRequestHandler.is_safe_path module_globals host
           (path (request "GET" "/.git/config")) (request "GET" "/.git/config"))
    = Return false) by (vm_compute; reflexivity).
  split; [by repeat split |].
  destruct (denied_get_never_reaches_the_file_system module_globals host
              (request "GET" "/.git/config") Hfresh eq_refl Hdenied)
    as (why & h' & Hrun & Hstatus & _ & Hclose & _).
  unfold serve, after. rewrite Hrun. by split.
Defined.

(** ** The other ways through the handler *)



(** A command without a [do_] attribute. *)
Lemma unknown_method_run (g : globals) (env : Env) (h : handler) :
  command h ∉ known_methods →
  SecureHTTPRequestHandler.handle_one_request g env h
  = (Return tt,
     refused env 501
       (py "Unsupported method (" ++ repr env (command h) ++ py ")") h).
Proof.
  intros Hcmd. rewrite handle_one_request_run. unfold dispatch.
  unfold known_methods in Hcmd.
  rewrite !not_elem_of_cons in Hcmd.
  destruct Hcmd as (? & ? & ? & ? & ? & _).
  rewrite !decide_False by done.
  by apply send_error_refused.
Qed.

(** X8. A method the handler has no [do_] attribute for (any command other
    than GET, POST, PUT, DELETE and HEAD, in exactly this spelling) is
    answered with 501 and the connection is closed; neither the Validator
    nor the file system is consulted. *)
Theorem unknown_methods_get_501 (g : globals) (env : Env) (h : handler) :
  fresh h →
  command h ∉ known_methods →
  ∃ h' : handler,
    SecureHTTPRequestHandler.handle_one_request g env h = (Return tt, h')
    ∧ status (wfile h') = Some 501
    ∧ stdout h'
      = stdout h ++ [Logged (fst (client_address h)) (py "501");
                     Logged (fst (client_address h)) (requestline h)]
    ∧ close_connection h' = true
    ∧ ∀ (g' : globals) (u : str → exn + str)
        (f : str → list (str * str) → fs_outcome),
        SecureHTTPRequestHandler.handle_one_request g'
          (with_unquote u (with_fs f env)) h
        = SecureHTTPRequestHandler.handle_one_request g env h.
Proof.
  intros Hfresh Hcmd. eexists. split; [by apply unknown_method_run |].
  split.
  { eapply responded_status; [exact Hfresh | apply refused_responded]. }
  split; [reflexivity |]. split; [reflexivity |].
  intros g' u f. by rewrite !unknown_method_run.
Qed.

Lemma unknown_methods_get_501_witness :
  (fresh (request "get" "/index.html")
   ∧ command (request "get" "/index.html") ∉ known_methods)
  ∧ status (wfile (serve (request "get" "/index.html"))) = Some 501.
Proof.
  assert (Hfresh : fresh (request "get" "/index.html")) by (split; reflexivity).
  assert (Hcmd : command (request "get" "/index.html") ∉ known_methods)
    by decide_by_running.
  split; [by split |].
  destruct (unknown_methods_get_501 module_globals host
              (request "get" "/index.html") Hfresh Hcmd)
    as (h' & Hrun & Hstatus & _).
  unfold serve, after. by rewrite Hrun.
Defined.

Lemma mutating_method_run (g : globals) (env : Env) (h : handler) :
  command h ∈ [py "POST"; py "PUT"; py "DELETE"] →
  SecureHTTPRequestHandler.handle_one_request g env h
  = (Return tt, refused env 405 (py "Method Not Allowed") h).
Proof.
  intros Hcmd. rewrite handle_one_request_run. unfold dispatch.
  rewrite !elem_of_cons, elem_of_nil in Hcmd.
  destruct Hcmd as [Hc | [Hc | [Hc | []]]]; rewrite Hc.
  - rewrite decide_False by done. rewrite decide_True by done.
    by apply send_error_refused.
  - rewrite !decide_False by done. rewrite decide_True by done.
    by apply send_error_refused.
  - rewrite !decide_False by done. rewrite decide_True by done.
    by apply send_error_refused.
Qed.

Lemma head_run (g : globals) (env : Env) (h : handler) :
  command h = py "HEAD" →
  SecureHTTPRequestHandler.handle_one_request g env h
  = SimpleHTTPRequestHandler.do_HEAD env SecureHTTPRequestHandler.log_message
      (SecureHTTPRequestHandler.end_headers env) h.
Proof.
  intros Hcmd. rewrite handle_one_request_run. unfold dispatch. rewrite Hcmd.
  rewrite !decide_False by done. by rewrite decide_True.
Qed.

Lemma responder_codes (code : N) :
  code ∈ [200; 301; 304; 404] → code ≠ 403 ∧ code ≠ 405 ∧ code ≠ 501.
Proof.
  rewrite !elem_of_cons, elem_of_nil.
  intros [-> | [-> | [-> | [-> | []]]]]; done.
Qed.

(** X9. The status of the response tells how the request was dispatched:
    it is 403 exactly for a GET whose path the Validator denies, 405 exactly
    for POST, PUT and DELETE, and 501 exactly for a command the handler has
    no method for. *)
Theorem status_tells_the_dispatch (g : globals) (env : Env) (h : handler) :
  fresh h →
  ∃ (code : N) (h' : handler),
    SecureHTTPRequestHandler.handle_one_request g env h = (Return tt, h')
    ∧ status (wfile h') = Some code
    ∧ (code = 403 ↔
       command h = py "GET"
       ∧ fst (SecureHTTPRequestHandler.is_safe_path g env (path h) h)
         = Return false)
    ∧ (code = 405 ↔ command h ∈ [py "POST"; py "PUT"; py "DELETE"])
    ∧ (code = 501 ↔ command h ∉ known_methods).
Proof.
  intros Hfresh.
  destruct (decide (command h = py "GET")) as [Hget | Hnotget].
  - assert (Hknown : command h ∈ known_methods) by (rewrite Hget; left).
    assert (Hnot405 : command h ∉ [py "POST"; py "PUT"; py "DELETE"])
      by (rewrite Hget; decide_by_running).
    destruct (fst (SecureHTTPRequestHandler.is_safe_path g env (path h) h))
      as [[|] | e] eqn:Hverdict.
    + destruct (simple_do_GET_responds env h)
        as (code & h' & Hdo & (logs & Hresp & _) & Hcode & _).
      destruct (responder_codes code Hcode) as (H403 & H405 & H501).
      exists code, h'. split.
      { rewrite handle_one_request_run. unfold dispatch.
        rewrite decide_True by done.
        pose proof (do_GET_run g env h) as H.
        destruct (SecureHTTPRequestHandler.is_safe_path g env (path h) h)
          as [[[|] | e] h1]; [| done | done].
        destruct H as [_ ->]. exact Hdo. }
      split; [by eapply responded_status |].
      split; [split; [done | by intros [_ [=]]] |].
      split; split; done.
    + destruct (denied_get_run g env h Hget Hverdict) as [why Hrun].
      eexists 403, _. split; [exact Hrun |].
      split.
      { eapply responded_status; [| apply refused_responded]. exact Hfresh. }
      split; [done |]. split; split; done.
    + pose proof (do_GET_run g env h) as H.
      destruct (SecureHTTPRequestHandler.is_safe_path g env (path h) h)
        as [[[|] | e'] h1]; done.
  - destruct (decide (command h ∈ [py "POST"; py "PUT"; py "DELETE"]))
      as [Hmut | Hnotmut].
    + assert (Hknown : command h ∈ known_methods).
      { unfold known_methods. revert Hmut. rewrite !elem_of_cons. tauto. }
      eexists 405, _. split; [by apply mutating_method_run |].
      split.
      { eapply responded_status; [exact Hfresh | apply refused_responded]. }
      split; [split; [done | by intros [? _]] |].
      split; split; done.
    + destruct (decide (command h = py "HEAD")) as [Hhead | Hnothead].
      * assert (Hknown : command h ∈ known_methods)
          by (rewrite Hhead; decide_by_running).
        destruct (simple_do_HEAD_responds env h)
          as (code & h' & Hdo & (logs & Hresp & _) & Hcode & _).
        destruct (responder_codes code Hcode) as (H403 & H405 & H501).
        exists code, h'. split; [by rewrite head_run |].
        split; [by eapply responded_status |].
        split; [split; [done | by intros [? _]] |].
        split; split; done.
      * assert (Hunknown : command h ∉ known_methods).
        { unfold known_methods. revert Hnotmut.
          rewrite !not_elem_of_cons. tauto. }
        eexists 501, _. split; [by apply unknown_method_run |].
        split.
        { eapply responded_status; [exact Hfresh | apply refused_responded]. }
        split; [split; [done | by intros [? _]] |].
        split; split; done.
Qed.

Lemma status_tells_the_dispatch_witness :
  fresh (request "DELETE" "/index.html")
  ∧ status (wfile (serve (request "DELETE" "/index.html"))) = Some 405.
Proof.
  assert (Hfresh : fresh (request "DELETE" "/index.html")) by (split; reflexivity).
  split; [exact Hfresh |].
  destruct (status_tells_the_dispatch module_globals host
              (request "DELETE" "/index.html") Hfresh)
    as (code & h' & Hrun & Hstatus & _ & H405 & _).
  unfold serve, after. rewrite Hrun. cbn [snd]. rewrite Hstatus. f_equal.
  apply H405. decide_by_running.
Defined.

(** X10. The answer to a request is one header block: the status line
    first, then headers outside the table, then the eight headers of
    [end_headers] in the order of the source, then the blank line; after
    it only body bytes, and nothing stays in the buffer. *)
Theorem one_header_block_per_response (g : globals) (env : Env)
    (h h' : handler) :
  fresh h →
  SecureHTTPRequestHandler.handle_one_request g env h = (Return tt, h') →
  ∃ (code : N) (message : str) (head : list line) (payload : list chunk),
    wfile h'
    = Lines (StatusLine (protocol_version env) code message
             :: head ++ policy_lines ++ [BlankLine]) :: payload
    ∧ forallb is_header head = true
    ∧ forallb is_payload payload = true
    ∧ _headers_buffer h' = [].
Proof.
  intros [Hbuf Hw] Hanswer.
  destruct (handle_one_request_responds g env h)
    as (code & logs & h0 & Hrun & (c & message & head & payload & -> & Hh & Hp) & _).
  rewrite Hrun in Hanswer. injection Hanswer as <-.
  exists code, message, head, payload.
  cbn [wfile _headers_buffer upd]. rewrite Hbuf, Hw. by repeat split.
Qed.

Lemma one_header_block_per_response_witness :
  (fresh (request "GET" "/index.html")
   ∧ SecureHTTPRequestHandler.handle_one_request module_globals host
       (request "GET" "/index.html")
     = (Return tt, serve (request "GET" "/index.html")))
  ∧ ∃ head payload,
      wfile (serve (request "GET" "/index.html"))
      = Lines (StatusLine (py "HTTP/1.0") 200 (py "OK")
               :: head ++ policy_lines ++ [BlankLine]) :: payload.
Proof.
  assert (Hfresh : fresh (request "GET" "/index.html")) by (split; reflexivity).
  assert (Hanswer :
    SecureHTTPRequestHandler.handle_one_request module_globals host
      (request "GET" "/index.html")
    = (Return tt, serve (request "GET" "/index.html")))
    by (vm_compute; reflexivity).
  split; [by split |].
  destruct (one_header_block_per_response module_globals host
              (request "GET" "/index.html") _ Hfresh Hanswer)
    as (code & message & head & payload & Hw & _).
  exists head, payload. rewrite Hw.
  vm_compute in Hw. injection Hw as <- <- _.
  reflexivity.
Defined.

(** X11. [end_headers] on any handler: the eight headers of the table go
    behind whatever is buffered, in the order of the source, the blank line
    closes the block, the block is written to the socket in one piece and
    the buffer is emptied; none of the eight headers touches the keep-alive
    decision, and nothing is printed. *)
Theorem end_headers_appends_the_policy (env : Env) (h : handler) :
  ∃ h' : handler,
    SecureHTTPRequestHandler.end_headers env h = (Return tt, h')
    ∧ wfile h' = wfile h ++ [Lines (_headers_buffer h ++ policy_lines ++ [BlankLine])]
    ∧ _headers_buffer h' = []
    ∧ close_connection h' = close_connection h
    ∧ stdout h' = stdout h.
Proof.
  eexists. split.
  - rewrite <- (upd_self h) at 1. apply end_headers_run.
  - by repeat split.
Qed.

(** ** [os.path.splitext] and [os.path.basename] on any path *)

Lemma rfind_cases (s : str) (c : N) :
  ((c ∉ s) ∧ rfind s c = (-1)%Z)
  ∨ (∃ pre post, s = pre ++ c :: post ∧ (c ∉ post)
                 ∧ rfind s c = Z.of_nat (length pre)).
Proof.
  destruct (decide (c ∈ s)) as [Hin | Hout].
  - right. apply list_elem_of_split_r in Hin as (pre & post & -> & Hpost).
    exists pre, post. split; [done |]. split; [done |].
    unfold rfind. rewrite rfind_from_last by (done || lia). lia.
  - left. split; [done |]. unfold rfind. by apply rfind_from_absent.
Qed.

Lemma splitext_loop_cases (p : str) (dotIndex : Z) (n : nat) (filenameIndex : Z) :
  Posixpath._splitext_loop p dotIndex n filenameIndex = (p, slice_to p 0)
  ∨ Posixpath._splitext_loop p dotIndex n filenameIndex
    = (slice_to p dotIndex, slice_from p dotIndex).
Proof.
  revert filenameIndex. induction n as [|n IH]; intros filenameIndex.
  - by left.
  - cbn [Posixpath._splitext_loop]. case_match; [by right | apply IH].
Qed.

(** X12. [os.path.splitext] cuts the path in two without losing a
    character: root and extension put together are the path again. The
    extension is empty, or it is the last dot of the path with what follows
    it, and then holds no other dot and no separator. *)
Theorem splitext_rejoins (p : str) :
  fst (Posixpath.splitext p) ++ snd (Posixpath.splitext p) = p
  ∧ (snd (Posixpath.splitext p) = []
     ∨ ∃ tail, snd (Posixpath.splitext p) = Posixpath.extsep :: tail
               ∧ (Posixpath.extsep ∉ tail) ∧ (Posixpath.sep ∉ tail)).
Proof.
  unfold Posixpath.splitext, Posixpath._splitext.
  assert (Hnone : slice_to p 0 = []) by (unfold slice_to; by destruct p).
  destruct (Z.ltb_spec (rfind p Posixpath.sep) (rfind p Posixpath.extsep))
    as [Hlt | Hge]; cbv zeta.
  - destruct (splitext_loop_cases p (rfind p Posixpath.extsep)
                (Z.to_nat (rfind p Posixpath.extsep - (rfind p Posixpath.sep + 1)))
                (rfind p Posixpath.sep + 1)) as [-> | ->]; cbn [fst snd].
    + rewrite Hnone, app_nil_r. split; [done | by left].
    + split; [unfold slice_to, slice_from; apply take_drop |]. right.
      destruct (rfind_cases p Posixpath.extsep)
        as [[_ Hdot] | (pre & post & -> & Hpost & Hdot)].
      { destruct (rfind_cases p Posixpath.sep)
          as [[_ Hsep] | (pre' & post' & _ & _ & Hsep)]; lia. }
      rewrite Hdot, slice_from_app. exists post. split; [done |].
      split; [done |]. intros Hin.
      apply list_elem_of_split_r in Hin as (post1 & post2 & -> & Hpost2).
      revert Hlt. rewrite Hdot. unfold rfind.
      replace (pre ++ Posixpath.extsep :: post1 ++ Posixpath.sep :: post2)
        with ((pre ++ Posixpath.extsep :: post1) ++ Posixpath.sep :: post2)
        by (by rewrite <- app_assoc).
      rewrite rfind_from_last by (done || lia).
      rewrite length_app. simpl. lia.
  - cbn [fst snd]. rewrite Hnone, app_nil_r. split; [done | by left].
Qed.

(** X13. [os.path.basename] returns the end of the path from behind its last
    separator: it holds no separator, and what stands before it is empty or
    ends with a separator. *)
Theorem basename_is_the_last_segment (p : str) :
  ∃ dir : str,
    p = dir ++ Posixpath.basename p
    ∧ (Posixpath.sep ∉ Posixpath.basename p)
    ∧ (dir = [] ∨ ∃ dir', dir = dir' ++ [Posixpath.sep]).
Proof.
  rewrite basename_final_segment.
  destruct (decide (Posixpath.sep ∈ p)) as [Hin | Hout].
  - apply list_elem_of_split_r in Hin as (pre & post & -> & Hpost).
    rewrite final_segment_split by done.
    exists (pre ++ [Posixpath.sep]). split; [by rewrite <- app_assoc |].
    split; [done |]. right. by exists pre.
  - rewrite final_segment_whole by done. exists []. by repeat split; [| left].
Qed.

(** ** Bodies *)

Lemma error_payload_cases (env : Env) (code : N) (message cmd : str) :
  error_payload env code message cmd = []
  ∨ (cmd ≠ py "HEAD" ∧ ∃ b, error_payload env code message cmd = [Payload b]).
Proof.
  unfold error_payload, Str.eqb.
  destruct (error_body env code message) as [|b bs]; [by left |].
  case_bool_decide; [by left | right]. split; [done | by eexists].
Qed.

(** What [send_head] leaves on the socket: one header block, and a body
    only where it sent an error page to a request other than HEAD. *)
Lemma send_head_chunks (env : Env) (h : handler) :
  ∃ f h' block body,
    SimpleHTTPRequestHandler.send_head env SecureHTTPRequestHandler.log_message
      (SecureHTTPRequestHandler.end_headers env) h = (Return f, h')
    ∧ wfile h' = wfile h ++ Lines block :: body
    ∧ (body = [] ∨ (command h ≠ py "HEAD" ∧ f = None ∧ ∃ b, body = [Payload b])).
Proof.
  unfold SimpleHTTPRequestHandler.send_head.
  erewrite bind_return by reflexivity.
  erewrite bind_return by reflexivity.
  assert (Herror : ∀ message,
    ∃ f h' block body,
      (BaseHTTPRequestHandler.send_error env SecureHTTPRequestHandler.log_message
         (SecureHTTPRequestHandler.end_headers env) 404 (Some message) None
       ≫= λ _, mret (None : option (list N))) h = (Return f, h')
      ∧ wfile h' = wfile h ++ Lines block :: body
      ∧ (body = []
         ∨ (command h ≠ py "HEAD" ∧ f = None ∧ ∃ b, body = [Payload b]))).
  { intros message. exists None. eexists. eexists. eexists. split.
    { erewrite bind_return
        by (apply (send_error_refused env 404 message h); reflexivity).
      reflexivity. }
    split; [reflexivity |].
    destruct (error_payload_cases env 404 message (command h)) as [-> | (? & ? & ->)].
    - by left.
    - right. split; [done |]. split; [done | by eexists]. }
  destruct (fs env (path h) (headers h))
    as [new_url | enc len listing | | | | ctype size mtime content];
    [| | by apply Herror | by apply Herror | |].
  all: match goal with
       | |- context [BaseHTTPRequestHandler.send_response _ _ ?n None] =>
           destruct (send_response_run env n None (close_connection h)
                       (_headers_buffer h) (wfile h) (stdout h) h)
             as [phrase Hresp]
       end.
  all: rewrite upd_self in Hresp.
  all: eexists _, _, _, []; split;
    [erewrite bind_return by apply Hresp; send_head_branch; reflexivity |].
  all: split; [reflexivity | by left].
Qed.

(** X14. A response has its header block and then at most one body, and a
    HEAD request gets no body at all, not even the error page of a 404. *)
Theorem head_gets_no_body (g : globals) (env : Env) (h : handler) :
  fresh h →
  ∃ (block : list line) (body : list chunk) (h' : handler),
    SecureHTTPRequestHandler.handle_one_request g env h = (Return tt, h')
    ∧ wfile h' = Lines block :: body
    ∧ (body = [] ∨ ∃ b, body = [Payload b])
    ∧ (command h = py "HEAD" → body = []).
Proof.
  intros [_ Hw].
  assert (Hrefused : ∀ code message h0,
    wfile h0 = [] → command h0 = command h →
    ∃ block body,
      wfile (refused env code message h0) = Lines block :: body
      ∧ (body = [] ∨ ∃ b, body = [Payload b])
      ∧ (command h = py "HEAD" → body = [])).
  { intros code message h0 Hw0 Hcmd0. eexists _, _.
    split; [unfold refused; cbn [wfile upd]; by rewrite Hw0 |].
    rewrite Hcmd0.
    destruct (error_payload_cases env code message (command h))
      as [-> | (? & ? & ->)].
    - split; [by left | done].
    - split; [right; by eexists | done]. }
  destruct (decide (command h = py "GET")) as [Hget | Hnotget].
  - destruct (fst (SecureHTTPRequestHandler.is_safe_path g env (path h) h))
      as [[|] | e] eqn:Hverdict.
    + assert (Hrun :
        SecureHTTPRequestHandler.handle_one_request g env h
        = SimpleHTTPRequestHandler.do_GET env SecureHTTPRequestHandler.log_message
            (SecureHTTPRequestHandler.end_headers env) h).
      { rewrite handle_one_request_run. unfold dispatch.
        rewrite decide_True by done.
        pose proof (do_GET_run g env h) as H.
        destruct (SecureHTTPRequestHandler.is_safe_path g env (path h) h)
          as [[[|] | e] h1]; [| done | done].
        by destruct H. }
      rewrite Hrun. unfold SimpleHTTPRequestHandler.do_GET.
      destruct (send_head_chunks env h)
        as (f & h' & block & body & Hhead & Hwfile & Hbody).
      rewrite Hw in Hwfile. cbn [app] in Hwfile.
      erewrite bind_return by apply Hhead.
      destruct f as [content |].
      * destruct Hbody as [-> | (_ & [=] & _)].
        exists block, [Payload content]. eexists. split; [reflexivity |].
        split.
        { unfold BaseHTTPRequestHandler.wfile_write, modify.
          cbn [snd wfile set_wfile]. by rewrite Hwfile. }
        split; [right; by eexists |]. intros Hhead'. rewrite Hget in Hhead'. discriminate.
      * exists block, body, h'. split; [reflexivity |]. split; [done |].
        split.
        { destruct Hbody as [-> | (_ & _ & b & ->)]; [by left | right; by eexists]. }
        intros Hhead'. rewrite Hget in Hhead'. discriminate.
    + destruct (denied_get_run g env h Hget Hverdict) as [why Hrun].
      destruct (Hrefused 403 (py "Forbidden")
                  (set_stdout (stdout h ++ [Blocked why (decoded env (path h))]) h))
        as (block & body & Hwfile & Hbody); [done | done |].
      exists block, body. eexists. split; [exact Hrun | done].
    + pose proof (do_GET_run g env h) as H.
      destruct (SecureHTTPRequestHandler.is_safe_path g env (path h) h)
        as [[[|] | e'] h1]; done.
  - destruct (decide (command h ∈ [py "POST"; py "PUT"; py "DELETE"]))
      as [Hmut | Hnotmut].
    + destruct (Hrefused 405 (py "Method Not Allowed") h)
        as (block & body & Hwfile & Hbody); [done | done |].
      exists block, body. eexists. split; [by apply mutating_method_run | done].
    + destruct (decide (command h = py "HEAD")) as [Hhead | Hnothead].
      * rewrite head_run by done. unfold SimpleHTTPRequestHandler.do_HEAD.
        destruct (send_head_chunks env h)
          as (f & h' & block & body & Hsend & Hwfile & Hbody).
        rewrite Hw in Hwfile. cbn [app] in Hwfile.
        erewrite bind_return by apply Hsend.
        destruct Hbody as [-> | (Hne & _)]; [| done].
        exists block, [], h'. split; [reflexivity |]. split; [done |].
        split; [by left | done].
      * assert (Hunknown : command h ∉ known_methods).
        { unfold known_methods. revert Hnotmut.
          rewrite !not_elem_of_cons. tauto. }
        destruct (Hrefused 501
                    (py "Unsupported method (" ++ repr env (command h) ++ py ")") h)
          as (block & body & Hwfile & Hbody); [done | done |].
        exists block, body. eexists. split; [by apply unknown_method_run | done].
Qed.

Lemma head_gets_no_body_witness :
  fresh (request "HEAD" "/missing.html")
  ∧ status (wfile (serve (request "HEAD" "/missing.html"))) = Some 404
  ∧ ∃ block, wfile (serve (request "HEAD" "/missing.html")) = [Lines block].
Proof.
  assert (Hfresh : fresh (request "HEAD" "/missing.html")) by (split; reflexivity).
  split; [exact Hfresh |]. split; [vm_compute; reflexivity |].
  destruct (head_gets_no_body module_globals host
              (request "HEAD" "/missing.html") Hfresh)
    as (block & body & h' & Hrun & Hw & _ & Hhead).
  exists block. unfold serve, after. rewrite Hrun. cbn [snd].
  rewrite Hw. by rewrite (Hhead eq_refl).
Defined.

(** ** Normalization of a path that reaches it *)

Lemma normpath_fold_plain (k : nat) (comps acc : list str) :
  (∀ seg, seg ∈ comps → seg ≠ py "." ∧ seg ≠ py "..") →
  fold_left (Posixpath.normpath_step k) comps acc
  = acc ++ List.filter nonempty comps.
Proof.
  revert acc. induction comps as [|comp comps IH]; intros acc Hplain.
  - cbn. by rewrite app_nil_r.
  - cbn [fold_left List.filter].
    destruct (Hplain comp) as [Hdot Hdots]; [left |].
    rewrite IH by (intros seg Hseg; apply Hplain; by right).
    unfold Posixpath.normpath_step, nonempty, Str.eqb.
    destruct (decide (comp = [])) as [-> | Hne].
    + by rewrite bool_decide_eq_true_2.
    + rewrite (bool_decide_eq_false_2 (comp = [])) by done.
      rewrite (bool_decide_eq_false_2 (comp = py ".")) by done.
      rewrite (bool_decide_eq_false_2 (comp = py "..")) by done.
      cbn [orb negb]. by rewrite <- app_assoc.
Qed.

Lemma join_cons_head (sep : str) (c : N) (x : str) (rest : list str) :
  join sep ((c :: x) :: rest) = c :: join sep (x :: rest).
Proof. by destruct rest. Qed.

Lemma join_nonempty (sep : str) (parts : list str) :
  parts ≠ [] → forallb nonempty parts = true → join sep parts ≠ [].
Proof.
  destruct parts as [|[|c w] rest]; [done | done |]. intros _ _.
  by destruct rest.
Qed.

Lemma filter_nonempty_all (comps : list str) :
  forallb nonempty (List.filter nonempty comps) = true.
Proof.
  induction comps as [|c comps IH]; [done |]. cbn [List.filter].
  destruct (nonempty c) eqn:Hc; [| done]. cbn [forallb]. by rewrite Hc.
Qed.

Lemma without_trailing_sep_cons (c : N) (s : str) :
  s ≠ [] → without_trailing_sep (c :: s) = c :: without_trailing_sep s.
Proof. by destruct s. Qed.

(** The kept components of a path that does not begin with a separator and
    has no doubled one: the path, without its final separator. *)
Lemma kept_components_relative (p : str) :
  ¬ begins_with [Posixpath.sep] p → ¬ occurs_in (py "//") p →
  kept_components p = without_trailing_sep p ∧ (p ≠ [] → kept_components p ≠ []).
Proof.
  remember (length p) as n eqn:Hn. revert p Hn.
  induction n as [n IH] using lt_wf_ind. intros p -> Hlead Hdouble.
  destruct p as [|c p]; [done |].
  assert (Hc : c ≠ Posixpath.sep) by (intros ->; apply Hlead; by exists p).
  destruct p as [|d p].
  - unfold kept_components. cbn [split].
    destruct (N.eqb_spec c Posixpath.sep) as [| _]; [done |].
    cbn. destruct (N.eqb_spec c Posixpath.sep); done.
  - destruct (decide (d = Posixpath.sep)) as [-> | Hd].
    + assert (Hs : split Posixpath.sep (c :: Posixpath.sep :: p)
                   = [c] :: split Posixpath.sep p).
      { cbn [split]. rewrite N.eqb_refl.
        by destruct (N.eqb_spec c Posixpath.sep). }
      assert (Hp : ¬ begins_with [Posixpath.sep] p).
      { intros [rest ->]. apply Hdouble. by exists [c], rest. }
      assert (Hp2 : ¬ occurs_in (py "//") p).
      { intros (pre & post & ->). apply Hdouble.
        by exists (c :: Posixpath.sep :: pre), post. }
      destruct (IH (length p)) with (p := p) as [Hkept Hne];
        [simpl; lia | done | done | done |].
      unfold kept_components in *. rewrite Hs. cbn [List.filter].
      change (nonempty [c]) with true. cbn iota.
      destruct p as [|e p].
      * by cbn.
      * rewrite without_trailing_sep_cons by done.
        rewrite without_trailing_sep_cons by done.
        rewrite <- Hkept.
        destruct (List.filter nonempty (split Posixpath.sep (e :: p)))
          as [|m ms].
        { exfalso. by apply Hne. }
        split; [reflexivity | done].
    + destruct (split_cons_other Posixpath.sep d p) as (w & ws & Hp & Hdp); [done |].
      destruct (split_cons_other Posixpath.sep c (d :: p)) as (w' & ws' & Hdp' & Hcdp);
        [done |].
      rewrite Hdp in Hdp'. injection Hdp' as <- <-.
      assert (Hp1 : ¬ begins_with [Posixpath.sep] (d :: p)).
      { intros [rest [= -> _]]. done. }
      assert (Hp2 : ¬ occurs_in (py "//") (d :: p)).
      { intros (pre & post & E). apply Hdouble.
        exists (c :: pre), post. by rewrite E. }
      destruct (IH (length (d :: p))) with (p := d :: p) as [Hkept _];
        [simpl; lia | done | done | done |].
      unfold kept_components in *. rewrite Hcdp. rewrite Hdp in Hkept.
      cbn [List.filter] in *.
      change (nonempty (c :: d :: w)) with true.
      change (nonempty (d :: w)) with true in Hkept. cbn iota in *.
      rewrite join_cons_head, Hkept.
      rewrite (without_trailing_sep_cons c) by done.
      split; [reflexivity | done].
Qed.

Lemma plain_segments (p : str) :
  ¬ occurs_in (py "/.") p → ¬ begins_with (py ".") p →
  ∀ seg, seg ∈ split Posixpath.sep p → seg ≠ py "." ∧ seg ≠ py "..".
Proof.
  intros Hhidden Hbegins seg Hseg.
  assert (Hdot : ¬ begins_with (py ".") seg).
  { intros [rest ->].
    destruct (split_segments Posixpath.sep p) as (w & ws & Hsplit & Hw & Hws).
    rewrite Hsplit in Hseg. apply elem_of_cons in Hseg as [<- | Hseg].
    - destruct Hw as [tail ->]. apply Hbegins. exists (rest ++ tail).
      by rewrite <- app_assoc.
    - destruct (Hws _ Hseg) as (pre & post & ->). apply Hhidden.
      exists pre, (rest ++ post). cbn [app]. by rewrite <- app_assoc. }
  split; intros ->; apply Hdot; [by exists [] | by exists (py ".")].
Qed.

Lemma without_trailing_sep_head (c : N) (s : str) :
  c ≠ Posixpath.sep →
  startswith (without_trailing_sep (c :: s)) (py "/") = false.
Proof.
  intros Hc. change (py "/") with [Posixpath.sep].
  destruct s as [|d s]; cbn [without_trailing_sep].
  - destruct (N.eqb_spec c Posixpath.sep) as [| _]; [done |].
    cbn [startswith].
    destruct (N.eqb_spec c Posixpath.sep) as [| _]; [done | reflexivity].
  - cbn [startswith].
    destruct (N.eqb_spec c Posixpath.sep) as [| _]; [done | reflexivity].
Qed.

(** X15. Normalization of a path that reaches it (no doubled separator,
    no hidden name): [normalized] is the path relative to the server root, that is the
    decoded path without its first and its final separator; it is [.] for
    the empty path and [/] for the root. Normalization removes nothing
    else. *)
Theorem normalized_is_the_relative_path (p : str) :
  ¬ occurs_in (py "//") p → ¬ occurs_in (py "/.") p → ¬ begins_with (py ".") p →
  normalized_of p
  = if Str.eqb p [] then py "."
    else if Str.eqb p (py "/") then py "/"
    else without_trailing_sep (without_leading_sep p).
Proof.
  intros Hdouble Hhidden Hbegins.
  destruct p as [|c q]; [reflexivity |].
  pose proof (plain_segments (c :: q) Hhidden Hbegins) as Hplain.
  unfold normalized_of, Posixpath.normpath, Str.eqb.
  rewrite (bool_decide_eq_false_2 (c :: q = [])) by done. cbv zeta.
  rewrite normpath_fold_plain by done. cbn [app].
  fold (kept_components (c :: q)).
  destruct (decide (c = Posixpath.sep)) as [-> | Hc].
  - assert (Hq : ¬ begins_with [Posixpath.sep] q).
    { intros [rest ->]. apply Hdouble. by exists [], rest. }
    assert (Hq2 : ¬ occurs_in (py "//") q).
    { intros (pre & post & ->). apply Hdouble.
      by exists (Posixpath.sep :: pre), post. }
    destruct (kept_components_relative q Hq Hq2) as [Hkept Hne].
    assert (Hk : kept_components (Posixpath.sep :: q) = kept_components q).
    { unfold kept_components. cbn [split]. by rewrite N.eqb_refl. }
    rewrite Hk, Hkept.
    replace (startswith (Posixpath.sep :: q) [Posixpath.sep]) with true
      by reflexivity.
    replace (startswith (Posixpath.sep :: q) [Posixpath.sep; Posixpath.sep])
      with false.
    2:{ symmetry. apply not_true_is_false. intros H%startswith_begins.
        destruct H as [rest [= ->]]. apply Hq. by exists rest. }
    cbn [andb Nat.eqb List.repeat app].
    destruct q as [|d q].
    + reflexivity.
    + case_bool_decide as Hnil; [discriminate Hnil |].
      case_bool_decide as Hroot; [discriminate Hroot |].
      cbn [without_leading_sep]. rewrite N.eqb_refl.
      assert (Hlen : without_trailing_sep (d :: q) ≠ [])
        by (rewrite <- Hkept; by apply Hne).
      destruct (without_trailing_sep (d :: q)) as [|x xs]; [done |].
      change (py "/") with [Posixpath.sep]. cbn [startswith].
      rewrite N.eqb_refl. cbn [andb length Nat.ltb Nat.leb].
      exact (slice_from_app [Posixpath.sep] (x :: xs)).
  - assert (Hp : ¬ begins_with [Posixpath.sep] (c :: q)).
    { intros [rest [= -> _]]. done. }
    destruct (kept_components_relative (c :: q) Hp Hdouble) as [Hkept Hne].
    rewrite Hkept.
    replace (startswith (c :: q) [Posixpath.sep]) with false
      by (cbn; by destruct (N.eqb_spec c Posixpath.sep)).
    cbn [Nat.eqb].
    case_bool_decide as Hnil.
    { exfalso. rewrite <- Hkept in Hnil. by apply Hne in Hnil. }
    case_bool_decide as Hroot.
    { exfalso. injection Hroot as -> _. by apply Hc. }
    cbn [without_leading_sep].
    destruct (N.eqb_spec c Posixpath.sep) as [| _]; [done |].
    by rewrite without_trailing_sep_head.
Qed.

Lemma normalized_is_the_relative_path_witness :
  (¬ occurs_in (py "//") (py "/assets/img/")
   ∧ ¬ occurs_in (py "/.") (py "/assets/img/")
   ∧ ¬ begins_with (py ".") (py "/assets/img/"))
  ∧ normalized_of (py "/assets/img/") = py "assets/img".
Proof.
  assert (H1 : ¬ occurs_in (py "//") (py "/assets/img/"))
    by (apply not_occurs; vm_compute; reflexivity).
  assert (H2 : ¬ occurs_in (py "/.") (py "/assets/img/"))
    by (apply not_occurs; vm_compute; reflexivity).
  assert (H3 : ¬ begins_with (py ".") (py "/assets/img/"))
    by (apply not_begins; vm_compute; reflexivity).
  split; [by repeat split |].
  rewrite (normalized_is_the_relative_path (py "/assets/img/") H1 H2 H3).
  vm_compute. reflexivity.
Defined.

(** ** What the decoder returns can be printed *)

Lemma low_bits (b lo : N) (k : N) :
  lo = 2 ^ k * (lo / 2 ^ k) → lo ≤ b → b < lo + 2 ^ k →
  N.land b (N.ones k) = b - lo.
Proof.
  intros Hlo Hle Hlt. rewrite N.land_ones. symmetry.
  apply (N.mod_unique b (2 ^ k) (lo / 2 ^ k)); lia.
Qed.

Lemma low6_cont (c : N) : Urllib.is_cont c = true → Urllib.low6 c = c - 128.
Proof.
  unfold Urllib.is_cont, Urllib.low6. intros [H1 H2]%andb_true_iff.
  apply N.leb_le in H1, H2.
  apply (low_bits c 128 6); [reflexivity | lia | simpl; lia].
Qed.

Lemma not_surrogate (c : N) :
  c < 55296 ∨ 57343 < c → negb (is_surrogate c) = true.
Proof.
  unfold is_surrogate. intros H. apply negb_true_iff, andb_false_iff.
  destruct H; [left; apply N.leb_gt | right; apply N.leb_gt]; lia.
Qed.

(** [bytes.decode('utf-8', 'replace')] never returns a surrogate: the
    sequences that would encode one are ill-formed. *)
Lemma utf8_decode_encodable (bs : list N) :
  encodable (Urllib.utf8_decode bs) = true.
Proof.
  remember (length bs) as n eqn:Hn. revert bs Hn.
  induction n as [n IH] using lt_wf_ind. intros bs ->.
  assert (Hrec : ∀ r, (length r < length bs)%nat →
                      encodable (Urllib.utf8_decode r) = true).
  { intros r Hr. by apply (IH (length r)). }
  clear IH.
  assert (Hout : ∀ c r, (length r < length bs)%nat →
                        c < 55296 ∨ 57343 < c →
                        encodable (c :: Urllib.utf8_decode r) = true).
  { intros c r Hr Hc. unfold encodable. cbn [forallb].
    rewrite not_surrogate by done. by apply Hrec. }
  assert (Hlast : encodable [Urllib.replacement] = true) by reflexivity.
  assert (Hrepl : 65533 < 55296 ∨ 57343 < 65533) by (right; lia).
  destruct bs as [|b r0]; [reflexivity |].
  cbn [Urllib.utf8_decode length] in *.
  destruct (N.ltb_spec b 128) as [Hb | Hb].
  { apply Hout; [lia | left; lia]. }
  destruct ((194 <=? b) && (b <=? 223)) eqn:H2.
  { apply andb_true_iff in H2 as [Hlo Hhi]. apply N.leb_le in Hlo, Hhi.
    destruct r0 as [|c1 r1]; [exact Hlast |].
    destruct (Urllib.is_cont c1) eqn:Hc1.
    - apply Hout; [cbn [length]; lia |]. left.
      rewrite (low6_cont c1 Hc1).
      apply andb_true_iff in Hc1 as [Hc1lo Hc1hi].
      apply N.leb_le in Hc1lo, Hc1hi.
      change 31 with (N.ones 5).
      rewrite (low_bits b 192 5) by (reflexivity || (simpl; lia)).
      lia.
    - apply Hout; [lia | exact Hrepl]. }
  destruct ((224 <=? b) && (b <=? 239)) eqn:H3.
  { apply andb_true_iff in H3 as [Hlo Hhi]. apply N.leb_le in Hlo, Hhi.
    destruct r0 as [|c1 r1]; [exact Hlast |].
    destruct (Urllib.is_cont c1 && negb ((b =? 224) && (c1 <? 160))
              && negb ((b =? 237) && (160 <=? c1))) eqn:Hc1.
    - apply andb_true_iff in Hc1 as [[Hc1 _]%andb_true_iff Hsur].
      destruct r1 as [|c2 r2]; [exact Hlast |].
      destruct (Urllib.is_cont c2) eqn:Hc2.
      + apply Hout; [cbn [length]; lia |].
        rewrite (low6_cont c1 Hc1), (low6_cont c2 Hc2).
        apply negb_true_iff, andb_false_iff in Hsur.
        apply andb_true_iff in Hc1 as [Hc1lo Hc1hi].
        apply N.leb_le in Hc1lo, Hc1hi.
        apply andb_true_iff in Hc2 as [Hc2lo Hc2hi].
        apply N.leb_le in Hc2lo, Hc2hi.
        change 15 with (N.ones 4).
        rewrite (low_bits b 224 4) by (reflexivity || (simpl; lia)).
        destruct Hsur as [Hsur | Hsur].
        * apply N.eqb_neq in Hsur. lia.
        * apply N.leb_gt in Hsur. lia.
      + apply Hout; [cbn [length]; lia | exact Hrepl].
    - apply Hout; [lia | exact Hrepl]. }
  destruct ((240 <=? b) && (b <=? 244)) eqn:H4.
  { apply andb_true_iff in H4 as [Hlo Hhi]. apply N.leb_le in Hlo, Hhi.
    destruct r0 as [|c1 r1]; [exact Hlast |].
    destruct (Urllib.is_cont c1 && negb ((b =? 240) && (c1 <? 144))
              && negb ((b =? 244) && (144 <=? c1))) eqn:Hc1.
    - apply andb_true_iff in Hc1 as [[Hc1 Hsmall]%andb_true_iff _].
      destruct r1 as [|c2 r2]; [exact Hlast |].
      destruct (Urllib.is_cont c2) eqn:Hc2.
      + destruct r2 as [|c3 r3]; [exact Hlast |].
        destruct (Urllib.is_cont c3) eqn:Hc3.
        * apply Hout; [cbn [length]; lia |]. right.
          rewrite (low6_cont c1 Hc1), (low6_cont c2 Hc2), (low6_cont c3 Hc3).
          apply negb_true_iff, andb_false_iff in Hsmall.
          apply andb_true_iff in Hc1 as [Hc1lo Hc1hi].
          apply N.leb_le in Hc1lo, Hc1hi.
          change 7 with (N.ones 3).
          rewrite (low_bits b 240 3) by (reflexivity || (simpl; lia)).
          destruct Hsmall as [Hsmall | Hsmall].
          -- apply N.eqb_neq in Hsmall. lia.
          -- apply N.ltb_ge in Hsmall. lia.
        * apply Hout; [cbn [length]; lia | exact Hrepl].
      + apply Hout; [cbn [length]; lia | exact Hrepl].
    - apply Hout; [lia | exact Hrepl]. }
  apply Hout; [lia | exact Hrepl].
Qed.

Lemma encodable_app (s t : str) :
  encodable (s ++ t) = encodable s && encodable t.
Proof. unfold encodable. apply forallb_app. Qed.

(** The runs of a string hold its characters and no others. *)
Lemma runs_encodable (s : str) :
  encodable s = true →
  forallb (λ ar, encodable (snd ar)) (Urllib.runs s) = true.
Proof.
  induction s as [|c s IH]; [done |]. unfold encodable. cbn [forallb].
  intros [Hc Hs]%andb_true_iff. specialize (IH Hs).
  cbn [Urllib.runs].
  destruct (Urllib.runs s) as [|[a r] rs].
  - cbn [forallb snd]. unfold encodable. cbn [forallb]. by rewrite Hc.
  - cbn [forallb snd] in IH. apply andb_true_iff in IH as [Hr Hrs].
    destruct (Bool.eqb a (is_ascii c)); cbn [forallb snd].
    + unfold encodable in *. cbn [forallb]. by rewrite Hc, Hr.
    + unfold encodable in *. cbn [forallb]. by rewrite Hc, Hr.
Qed.

(** CPython's [unquote] adds no surrogate to a string. *)
Lemma unquote_encodable (s p : str) :
  encodable s = true → Urllib.unquote s = inr p → encodable p = true.
Proof.
  intros Hs. unfold Urllib.unquote.
  destruct (negb (contains (py "%") s)); intros [= <-]; [exact Hs |].
  pose proof (runs_encodable s Hs) as Hruns.
  induction (Urllib.runs s) as [|[a r] rs IH]; [done |].
  cbn [List.map List.concat forallb fst snd] in *.
  apply andb_true_iff in Hruns as [Hr Hrs].
  rewrite encodable_app, (IH Hrs), andb_true_r.
  destruct a; [apply utf8_decode_encodable | exact Hr].
Qed.

(** A string decoded as ISO-8859-1 holds code points below 256. *)
Lemma latin1_encodable (s : str) :
  Forall (λ c, c < 256) s → encodable s = true.
Proof.
  intros Hs. unfold encodable. apply forallb_forall.
  intros c Hc%list_elem_of_In. rewrite Forall_forall in Hs.
  apply not_surrogate. left. specialize (Hs c Hc). cbv beta in Hs. lia.
Qed.

Lemma stripped_encodable (raw : str) :
  encodable raw = true → encodable (stripped raw) = true.
Proof.
  unfold stripped. generalize 63. intros q.
  induction raw as [|c raw IH]; [done |]. unfold encodable. cbn [forallb split].
  intros [Hc Hraw]%andb_true_iff. specialize (IH Hraw).
  destruct (N.eqb c q); [reflexivity |].
  destruct (split q raw) as [|w ws]; cbn [nth] in *.
  - cbn. by rewrite Hc.
  - unfold encodable in IH. cbn [forallb]. by rewrite Hc, IH.
Qed.

(** X16. With CPython's decoder, every path that a request can carry gets
    a verdict. A string without a surrogate code point (such is every
    string decoded as ISO-8859-1, as the request line is) has none after
    query stripping and decoding either, since [unquote] puts U+FFFD for
    the bytes that would spell one; so each diagnostic can be printed, and
    [is_safe_path] returns the verdict and prints the line that it returns
    and prints where every line can be printed. *)
Theorem request_paths_get_a_verdict (g : globals) (env : Env) (raw : str)
    (h : handler) :
  unquote env = Urllib.unquote →
  encodable raw = true →
  encodable (decoded env raw) = true
  ∧ ∃ (verdict : bool) (h' : handler),
      SecureHTTPRequestHandler.is_safe_path_utf8 g env raw h = (Return verdict, h')
      ∧ SecureHTTPRequestHandler.is_safe_path g env raw h = (Return verdict, h').
Proof.
  intros Hunquote Hraw.
  assert (Hdec : encodable (decoded env raw) = true).
  { unfold decoded. rewrite Hunquote.
    pose proof (stripped_encodable raw Hraw) as Hstripped.
    destruct (Urllib.unquote (stripped raw)) as [e | p] eqn:Hp; [done |].
    by apply (unquote_encodable (stripped raw)). }
  split; [exact Hdec |].
  rewrite is_safe_path_utf8_run, Hdec, is_safe_path_run. cbv zeta.
  repeat case_match; by eexists _, _.
Qed.

Lemma request_paths_get_a_verdict_witness :
  (unquote host = Urllib.unquote
   ∧ encodable (py "/%ED%A0%80/%2e%2e/secret") = true)
  ∧ SecureHTTPRequestHandler.is_safe_path_utf8 module_globals host
      (py "/%ED%A0%80/%2e%2e/secret") (request "GET" "/")
    = (Return false,
       set_stdout
         [Blocked Traversal
            ([47; 65533; 65533; 65533] ++ py "/../secret")]
         (request "GET" "/")).
Proof.
  assert (Henc : encodable (py "/%ED%A0%80/%2e%2e/secret") = true)
    by (vm_compute; reflexivity).
  split; [by split |].
  destruct (request_paths_get_a_verdict module_globals host
              (py "/%ED%A0%80/%2e%2e/secret") (request "GET" "/")
              eq_refl Henc)
    as (_ & verdict & h' & Hrun & _).
  rewrite Hrun. vm_compute in Hrun. injection Hrun as <- <-.
  reflexivity.
Defined.
